(** * Compass: indicator, labelling and backtest pipeline

  A shallow embedding of the three Python scripts that carry the
  pipeline's arithmetic:

  - [scripts/train_multi_timeframe.py]  (module [MultiTimeframe])
  - [scripts/train_lstm_signal.py]      (module [LstmSignal])
  - [scripts/backtest_models.py]        (module [Backtest])

  Prices, volumes and features are NumPy [float64] values; they are
  modelled by Rocq's primitive binary64 floats, so comparisons, division
  by zero, NaN and the infinities behave as they do in the scripts.
  Indexing that raises [IndexError] in Python is a [None] in the option
  monad; slicing never raises and clips at the end of the array.  Indices
  are natural numbers: the loops start at 200 (30 in the backtest) and look
  back at most 200 (30) candles, so no index they compute is negative. *)

From Stdlib Require Import Floats ZArith Lia.
From stdpp Require Import base list option strings gmap.
Set Warnings "-inexact-float".

(** ** Binary64 floats *)

Module F64.

(** Python's [x != 0] on floats (true on NaN). *)
Definition ne0 (x : float) : bool := negb (PrimFloat.eqb x 0%float).

(** Python's [x > y]. *)
Definition gt (x y : float) : bool := PrimFloat.ltb y x.

(** The sign bit of the specification float. *)
Definition sf_neg (x : spec_float) : bool :=
  match x with
  | S754_zero _ => false
  | S754_infinity s => s
  | S754_nan => false
  | S754_finite s _ _ => s
  end.

Definition sf_pos (x : spec_float) : bool :=
  match x with
  | S754_zero _ => false
  | S754_infinity s => negb s
  | S754_nan => false
  | S754_finite s _ _ => negb s
  end.

End F64.

(** ** Python and NumPy helpers *)

Module Py.

(** [range(a, b)]: empty when [b <= a]. *)
Definition range (a b : nat) : list nat := seq a (b - a).

(** [xs[a:b]] for non-negative bounds: clipped to the array. *)
Definition slice {A} (a b : nat) (xs : list A) : list A := take (b - a) (drop a xs).

(** Python's builtin [sum] on floats: from the left, starting at [0], as
    CPython adds up to version 3.11.  (From 3.12 on the additions are
    compensated, which brings the total closer to the exact sum.) *)
Definition sum (xs : list float) : float := foldl PrimFloat.add 0%float xs.

(** Rounding a non-negative fraction [num / den] to the nearest integer,
    ties to even. *)
Definition round_half_even (num den : Z) : Z :=
  let q := (num / den)%Z in
  let r := (num mod den)%Z in
  match (2 * r ?= den)%Z with
  | Lt => q
  | Gt => (q + 1)%Z
  | Eq => if Z.even q then q else (q + 1)%Z
  end.

(** Python's [round(x, 2)] on a float: the exact binary value is rounded to
    two decimals, ties to even, and the decimal is read back as the nearest
    float.  NaN, the infinities, zeros and integral values are returned
    unchanged.  (The read-back is exact for [|x| < 2^46], far above any
    percentage.) *)
Definition round2 (x : float) : float :=
  match Prim2SF x with
  | S754_finite s m e =>
      if (0 <=? e)%Z then x
      else
        let k := round_half_even (100 * Z.pos m) (2 ^ (- e)) in
        let y := (PrimFloat.of_uint63 (Uint63.of_Z k) / 100)%float in
        if s then (- y)%float else y
  | _ => x
  end.

(** [arr[i] = x]: [IndexError] past the end of the array. *)
Definition assign {A} (arr : list A) (i : nat) (x : A) : option (list A) :=
  if decide (i < length arr) then Some (<[i := x]> arr) else None.

(** A loop [for i in idx: arr[i] = f(i)] over a preallocated array; an
    exception raised by [f] or by the assignment aborts it. *)
Definition fill {A} (f : nat -> option A) (init : list A) (idx : list nat)
  : option (list A) :=
  foldl (fun acc i => arr ← acc; x ← f i; assign arr i x) (Some init) idx.

End Py.

(** ** Labels shared by the training scripts: [0 = SELL], [1 = HOLD], [2 = BUY] *)

Module Label.

Definition SELL : Z := 0.

Definition HOLD : Z := 1.

Definition BUY : Z := 2.

(** [(future_price - current_price) / current_price * 100] *)
Definition forward_return (current_price future_price : float) : float :=
  ((future_price - current_price) / current_price * 100)%float.

(** The [if / elif / else] ladder both scripts use, at threshold [t]. *)
Definition of_return (t r : float) : Z :=
  if (t <? r)%float then BUY
  else if (r <? - t)%float then SELL
  else HOLD.

(** What the specification asks of a label [l] for a return [r]. *)
Definition law (t r : float) (l : Z) : Prop :=
  (l = BUY <-> (t <? r)%float = true) /\
  (l = SELL <-> (r <? - t)%float = true) /\
  (l = HOLD <-> (t <? r)%float = false /\ (r <? - t)%float = false) /\
  (PrimFloat.eqb r t = true -> l = HOLD).

End Label.

(** ** NumPy reductions on one-dimensional [float64] arrays *)

Module Np.

(** The float of a Python [int] such as [len(xs)]. *)
Definition of_nat (n : nat) : float := PrimFloat.of_uint63 (Uint63.of_Z (Z.of_nat n)).

(** The unrolled loop of NumPy's [pairwise_sum]: each pass adds the next
    eight elements to the eight accumulators [r]. *)
Fixpoint add_lanes (passes : nat) (r a : list float) : list float * list float :=
  match passes with
  | O => (r, a)
  | S passes => add_lanes passes (zip_with PrimFloat.add r (take 8 a)) (drop 8 a)
  end.

(** A block of [pairwise_sum]: fewer than eight elements are added from the
    left, starting at [-0.0]; eight or more go through eight accumulators,
    which are added in pairs, and the [n % 8] elements left over are added
    to that total from the left. *)
Definition block_sum (a : list float) : float :=
  let n := length a in
  if (n <? 8)%nat then foldl PrimFloat.add (-0)%float a
  else
    match add_lanes (n / 8 - 1) (take 8 a) (drop 8 a) with
    | ([r0; r1; r2; r3; r4; r5; r6; r7], rest) =>
        foldl PrimFloat.add (((r0 + r1) + (r2 + r3)) + ((r4 + r5) + (r6 + r7)))%float rest
    | _ => (-0)%float
    end.

(** [pairwise_sum(a, n)]: a block of at most 128 elements is summed by
    [block_sum]; a longer one is split at [n2 = n / 2 - (n / 2) % 8] and the
    sums of the two parts are added.  [fuel] bounds the depth of the
    splitting; any [fuel >= len(a)] gives the same value. *)
Fixpoint pairwise_sum (fuel : nat) (a : list float) : float :=
  match fuel with
  | O => block_sum a
  | S fuel =>
      let n := length a in
      if (n <=? 128)%nat then block_sum a
      else
        let n2 := (n / 2 - (n / 2) mod 8)%nat in
        (pairwise_sum fuel (take n2 a) + pairwise_sum fuel (drop n2 a))%float
  end.

(** [np.sum] of a one-dimensional [float64] array: [0.0] on an empty array;
    otherwise the reduction starts at [-0.0] (NumPy 1.25 and later; earlier
    versions start at [0.0], which differs only in the sign of a zero total)
    and adds the pairwise sum of the elements. *)
Definition sum (xs : list float) : float :=
  match xs with
  | [] => 0%float
  | _ => (-0 + pairwise_sum (length xs) xs)%float
  end.

(** [np.mean]: NaN on an empty array. *)
Definition mean (xs : list float) : float := (sum xs / of_nat (length xs))%float.

(** [np.std]: the population standard deviation. *)
Definition std (xs : list float) : float :=
  let m := mean xs in
  PrimFloat.sqrt (mean (map (fun x => ((x - m) * (x - m))%float) xs)).

(** [np.diff]: [a[k+1] - a[k]]. *)
Fixpoint diff (xs : list float) : list float :=
  match xs with
  | x :: (y :: _) as tl => (y - x)%float :: diff tl
  | _ => []
  end.

(** [np.maximum(a, b)] and [np.minimum(a, b)] on scalars: a NaN on the left
    is kept. *)
Definition maximum (a b : float) : float :=
  if PrimFloat.leb b a || PrimFloat.is_nan a then a else b.

Definition minimum (a b : float) : float :=
  if PrimFloat.leb a b || PrimFloat.is_nan a then a else b.

(** [np.max] and [np.min]: [ValueError] on an empty array. *)
Definition max (xs : list float) : option float :=
  match xs with
  | [] => None
  | x :: tl => Some (foldl maximum x tl)
  end.

Definition min (xs : list float) : option float :=
  match xs with
  | [] => None
  | x :: tl => Some (foldl minimum x tl)
  end.

(** [np.array(windows)] on a list of slices of one two-dimensional array:
    [ValueError] (an inhomogeneous shape) unless every slice has the same
    number of rows. *)
Definition stack {A} (windows : list (list A)) : option (list (list A)) :=
  match windows with
  | [] => Some []
  | w :: ws =>
      if forallb (fun w' => (length w' =? length w)%nat) ws then Some windows
      else None
  end.

(** Python's builtin [max(a, b)] and [max(a, b, c)]: a later argument wins
    only when it is strictly greater. *)
Definition pymax2 (a b : float) : float := if (a <? b)%float then b else a.

Definition pymax3 (a b c : float) : float := pymax2 (pymax2 a b) c.

End Np.

(** ** scripts/train_multi_timeframe.py *)

Module MultiTimeframe.

Local Open Scope float_scope.

(** One row of the [ohlcv] array built by [fetch_binance_data]:
    columns 0..4 are open, high, low, close, volume. *)
Record candle := Candle {
  open_ : float;
  high : float;
  low : float;
  close : float;
  volume : float
}.

(** The RSI lines of [calculate_features]. *)
Definition rsi (closes : list float) (i : nat) : float :=
  let window := Py.slice (i - 14) (i + 1) closes in
  let gains := map (fun d => Np.maximum d 0) (Np.diff window) in
  let losses := map (fun d => Np.maximum (- d) 0) (Np.diff window) in
  let avg_gain := if (0 <? length gains)%nat then Np.mean gains else 0 in
  let avg_loss := if (0 <? length losses)%nat then Np.mean losses else 0 in
  let rs := if F64.ne0 avg_loss then avg_gain / avg_loss else 0 in
  100 - (100 / (1 + rs)).

(** The RSI's [avg_loss], named for the statements below. *)
Definition rsi_avg_loss (closes : list float) (i : nat) : float :=
  let window := Py.slice (i - 14) (i + 1) closes in
  let losses := map (fun d => Np.maximum (- d) 0) (Np.diff window) in
  if (0 <? length losses)%nat then Np.mean losses else 0.

Definition macd (closes : list float) (i : nat) : option float :=
  let ema12 := Np.mean (Py.slice (i - 11) (i + 1) closes) in
  let ema26 := Np.mean (Py.slice (i - 25) (i + 1) closes) in
  c ← closes !! i;
  Some (if F64.ne0 c then (ema12 - ema26) / c else 0).

Definition bb_upper (closes : list float) (i : nat) : float :=
  let sma_20 := Np.mean (Py.slice (i - 19) (i + 1) closes) in
  let std_20 := Np.std (Py.slice (i - 19) (i + 1) closes) in
  sma_20 + (2 * std_20).

Definition bb_lower (closes : list float) (i : nat) : float :=
  let sma_20 := Np.mean (Py.slice (i - 19) (i + 1) closes) in
  let std_20 := Np.std (Py.slice (i - 19) (i + 1) closes) in
  sma_20 - (2 * std_20).

Definition bb_width (closes : list float) (i : nat) : option float :=
  c ← closes !! i;
  Some (if F64.ne0 c then (bb_upper closes i - bb_lower closes i) / c else 0).

Definition bb_position (closes : list float) (i : nat) : option float :=
  if F64.ne0 (bb_upper closes i - bb_lower closes i)
  then c ← closes !! i;
       Some ((c - bb_lower closes i) / (bb_upper closes i - bb_lower closes i))
  else Some 0.5.

Definition sma_20_50 (closes : list float) (i : nat) : float :=
  if F64.gt (Np.mean (Py.slice (i - 19) (i + 1) closes))
            (Np.mean (Py.slice (i - 49) (i + 1) closes))
  then 1.0 else 0.0.

Definition sma_50_200 (closes : list float) (i : nat) : float :=
  if F64.gt (Np.mean (Py.slice (i - 49) (i + 1) closes))
            (Np.mean (Py.slice (i - 199) (i + 1) closes))
  then 1.0 else 0.0.

Definition momentum (closes : list float) (i : nat) : option float :=
  c10 ← closes !! (i - 10)%nat;
  if F64.ne0 c10 then c ← closes !! i; Some ((c - c10) / c10) else Some 0.

Definition vol_ratio (volumes : list float) (i : nat) : option float :=
  if F64.ne0 (Np.mean (Py.slice (i - 19) (i + 1) volumes))
  then v ← volumes !! i; Some (v / Np.mean (Py.slice (i - 19) (i + 1) volumes))
  else Some 1.0.

(** [tr], the true range of candle [i] alone. *)
Definition true_range (highs lows closes : list float) (i : nat) : option float :=
  h ← highs !! i;
  l ← lows !! i;
  c1 ← closes !! (i - 1)%nat;
  Some (Np.pymax3 (h - l) (PrimFloat.abs (h - c1)) (PrimFloat.abs (l - c1))).

Definition atr (highs lows closes : list float) (i : nat) : option float :=
  tr ← true_range highs lows closes i;
  c ← closes !! i;
  Some (if F64.ne0 c then tr / c else 0).

Definition stochastic (highs lows closes : list float) (i : nat) : option float :=
  high_14 ← Np.max (Py.slice (i - 13) (i + 1) highs);
  low_14 ← Np.min (Py.slice (i - 13) (i + 1) lows);
  if F64.ne0 (high_14 - low_14)
  then c ← closes !! i; Some (((c - low_14) / (high_14 - low_14)) * 100)
  else Some 50.

Definition obv_change (volumes : list float) (i : nat) : option float :=
  v5 ← volumes !! (i - 5)%nat;
  if F64.ne0 v5 then v ← volumes !! i; Some ((v - v5) / v5) else Some 0.

(** The body of the loop of [calculate_features]: the eleven features of
    candle [i]. *)
Definition features_at (highs lows closes volumes : list float) (i : nat)
  : option (list float) :=
  let rsi := rsi closes i in
  macd ← macd closes i;
  bb_width ← bb_width closes i;
  bb_position ← bb_position closes i;
  let sma_20_50 := sma_20_50 closes i in
  let sma_50_200 := sma_50_200 closes i in
  momentum ← momentum closes i;
  vol_ratio ← vol_ratio volumes i;
  atr ← atr highs lows closes i;
  stochastic ← stochastic highs lows closes i;
  obv_change ← obv_change volumes i;
  Some [rsi; macd; bb_width; bb_position;
        sma_20_50; sma_50_200; momentum; vol_ratio;
        atr; stochastic / 100; obv_change].

(** The loop of [calculate_features]: one row per candle from index 200 on. *)
Definition feature_rows (ohlcv : list candle) : option (list (list float)) :=
  let closes := map close ohlcv in
  let highs := map high ohlcv in
  let lows := map low ohlcv in
  let volumes := map volume ohlcv in
  mapM (features_at highs lows closes volumes) (Py.range 200 (length closes)).

(** [calculate_features(ohlcv)] on the array [fetch_binance_data] returns.
    [np.array] of an empty list of rows is one-dimensional, so the column
    selection [ohlcv[:, 3]] raises [IndexError] on it. *)
Definition calculate_features (ohlcv : list candle) : option (list (list float)) :=
  match ohlcv with
  | [] => None
  | _ => feature_rows ohlcv
  end.

(** The body of the loop of [create_labels]. *)
Definition label_at (closes : list float) (lookahead_candles i : nat) : option Z :=
  future_price ← closes !! (i + lookahead_candles)%nat;
  current_price ← closes !! i;
  let price_change := (future_price - current_price) / current_price * 100 in
  Some (if F64.gt price_change 2.0 then 2%Z
        else if (price_change <? -2.0) then 0%Z
        else 1%Z).

(** [create_labels(closes, lookahead_candles)] *)
Definition create_labels (closes : list float) (lookahead_candles : nat)
  : option (list Z) :=
  mapM (label_at closes lookahead_candles)
       (Py.range 200 (length closes - lookahead_candles)).

(** [TIMEFRAMES]: the number of 5-minute candles ahead for each name. *)
Definition TIMEFRAMES : gmap string nat :=
  list_to_map [("5m", 1%nat); ("30m", 6%nat); ("1h", 12%nat);
               ("3h", 36%nat); ("6h", 72%nat); ("24h", 288%nat)]%string.

(** [train_model(asset, timeframe)] from the fetched array up to the pair
    [(X, y)] it hands to [model.fit]: the features, the labels of the
    timeframe ([KeyError] on an unknown name) and their alignment to the
    shorter of the two. *)
Definition train_model (ohlcv : list candle) (timeframe : string)
  : option (list (list float) * list Z) :=
  features ← calculate_features ohlcv;
  lookahead ← TIMEFRAMES !! timeframe;
  labels ← create_labels (map close ohlcv) lookahead;
  let min_len := Nat.min (length features) (length labels) in
  let X := take min_len features in
  let y := take min_len labels in
  Some (X, y).

End MultiTimeframe.

(** ** scripts/train_lstm_signal.py *)

Module LstmSignal.

Local Open Scope float_scope.

Definition SEQUENCE_LENGTH : nat := 60.

(** [max(closes[j] - closes[j-1], 0)] summed over [range(i-14, i)], over 14. *)
Definition rsi_gains (closes : list float) (i : nat) : option float :=
  terms ← mapM (fun j => cj ← closes !! j; cj1 ← closes !! (j - 1)%nat;
                         Some (Np.pymax2 (cj - cj1) 0))
               (Py.range (i - 14) i);
  Some (Py.sum terms / 14).

Definition rsi_losses (closes : list float) (i : nat) : option float :=
  terms ← mapM (fun j => cj1 ← closes !! (j - 1)%nat; cj ← closes !! j;
                         Some (Np.pymax2 (cj1 - cj) 0))
               (Py.range (i - 14) i);
  Some (Py.sum terms / 14).

(** Feature 0: RSI (simplified). *)
Definition feature_rsi (closes : list float) (i : nat) : option float :=
  if (14 <=? i)%nat then
    gains ← rsi_gains closes i;
    losses ← rsi_losses closes i;
    if PrimFloat.eqb losses 0 then Some 100
    else let rs := gains / losses in Some (100 - (100 / (1 + rs)))
  else Some 0.

(** Feature 1: MACD (simplified). *)
Definition feature_macd (closes : list float) (i : nat) : float :=
  if (26 <=? i)%nat then
    let ema12 := Np.mean (Py.slice (i - 12) i closes) in
    let ema26 := Np.mean (Py.slice (i - 26) i closes) in
    ema12 - ema26
  else 0.

Definition bb_upper (closes : list float) (i : nat) : float :=
  let sma := Np.mean (Py.slice (i - 20) i closes) in
  let std := Np.std (Py.slice (i - 20) i closes) in
  sma + 2 * std.

Definition bb_lower (closes : list float) (i : nat) : float :=
  let sma := Np.mean (Py.slice (i - 20) i closes) in
  let std := Np.std (Py.slice (i - 20) i closes) in
  sma - 2 * std.

(** Feature 2: Bollinger width. *)
Definition feature_bb_width (closes : list float) (i : nat) : float :=
  if (20 <=? i)%nat then
    let sma := Np.mean (Py.slice (i - 20) i closes) in
    if F64.ne0 sma then (bb_upper closes i - bb_lower closes i) / sma else 0
  else 0.

(** Feature 3: Bollinger position. *)
Definition feature_bb_position (closes : list float) (i : nat) : option float :=
  if (20 <=? i)%nat then
    if F64.ne0 (bb_upper closes i - bb_lower closes i)
    then c ← closes !! i;
         Some ((c - bb_lower closes i) / (bb_upper closes i - bb_lower closes i))
    else Some 0.5
  else Some 0.

(** Features 4 and 5: SMA divergence. *)
Definition feature_sma_20_50 (closes : list float) (i : nat) : float :=
  let sma20 := Np.mean (Py.slice (i - 20) i closes) in
  let sma50 := Np.mean (Py.slice (i - 50) i closes) in
  if F64.ne0 sma50 then (sma20 - sma50) / sma50 else 0.

Definition feature_sma_50_200 (closes : list float) (i : nat) : float :=
  let sma50 := Np.mean (Py.slice (i - 50) i closes) in
  let sma200 := Np.mean (Py.slice (i - 200) i closes) in
  if F64.ne0 sma200 then (sma50 - sma200) / sma200 else 0.

(** Feature 6: price momentum. *)
Definition feature_momentum (closes : list float) (i : nat) : option float :=
  if (5 <=? i)%nat then
    c5 ← closes !! (i - 5)%nat;
    if F64.ne0 c5 then c ← closes !! i; Some ((c - c5) / c5) else Some 0
  else Some 0.

(** Feature 7: volume ratio. *)
Definition feature_vol_ratio (volumes : list float) (i : nat) : option float :=
  if (20 <=? i)%nat then
    let vol_avg := Np.mean (Py.slice (i - 20) i volumes) in
    if F64.ne0 vol_avg then v ← volumes !! i; Some (v / vol_avg) else Some 1.0
  else Some 0.

(** The true range of candle [j]. *)
Definition true_range (highs lows closes : list float) (j : nat) : option float :=
  h ← highs !! j;
  l ← lows !! j;
  c1 ← closes !! (j - 1)%nat;
  Some (Np.pymax3 (h - l) (PrimFloat.abs (h - c1)) (PrimFloat.abs (l - c1))).

(** [atr]: the mean of the true ranges of candles [i-14 .. i-1]. *)
Definition mean_true_range (highs lows closes : list float) (i : nat) : option float :=
  trs ← mapM (true_range highs lows closes) (Py.range (i - 14) i);
  Some (Np.mean trs).

(** Feature 8: ATR (simplified). *)
Definition feature_atr (highs lows closes : list float) (i : nat) : option float :=
  if (14 <=? i)%nat then
    tr ← true_range highs lows closes i;
    atr ← mean_true_range highs lows closes i;
    c ← closes !! i;
    Some (if F64.ne0 c then atr / c else 0)
  else Some 0.

(** Feature 9: stochastic oscillator. *)
Definition feature_stochastic (highs lows closes : list float) (i : nat) : option float :=
  if (14 <=? i)%nat then
    lowest ← Np.min (Py.slice (i - 14) i lows);
    highest ← Np.max (Py.slice (i - 14) i highs);
    if F64.ne0 (highest - lowest)
    then c ← closes !! i; Some (((c - lowest) / (highest - lowest)) * 100)
    else Some 50
  else Some 0.

(** The body of the loop of [calculate_technical_indicators]: row [i]. *)
Definition row_at (highs lows closes volumes : list float) (i : nat)
  : option (list float) :=
  f0 ← feature_rsi closes i;
  let f1 := feature_macd closes i in
  let f2 := feature_bb_width closes i in
  f3 ← feature_bb_position closes i;
  let f4 := feature_sma_20_50 closes i in
  let f5 := feature_sma_50_200 closes i in
  f6 ← feature_momentum closes i;
  f7 ← feature_vol_ratio volumes i;
  f8 ← feature_atr highs lows closes i;
  f9 ← feature_stochastic highs lows closes i;
  Some [f0; f1; f2; f3; f4; f5; f6; f7; f8; f9; 0.0].

(** [calculate_technical_indicators]: [np.zeros((n, 11))] with the rows from
    index 200 on filled in. *)
Definition calculate_technical_indicators (highs lows closes volumes : list float)
  : option (list (list float)) :=
  let n := length closes in
  Py.fill (row_at highs lows closes volumes)
          (replicate n (replicate 11 0)) (Py.range 200 n).

(** The body of the loop of [create_sequences]. *)
Definition sequence_at (features : list (list float)) (closes : list float)
    (seq_length look_ahead i : nat) : option (list (list float) * Z) :=
  let seq := Py.slice (i - seq_length) i features in
  current_price ← closes !! i;
  future_price ← closes !! (i + look_ahead)%nat;
  let future_return := (future_price - current_price) / current_price * 100.0 in
  let label := if F64.gt future_return 0.15 then 2%Z
               else if (future_return <? -0.15) then 0%Z
               else 1%Z in
  Some (seq, label).

(** [create_sequences(features, closes, seq_length, look_ahead)]: the pair
    [(np.array(sequences), np.array(labels))].  The first conversion raises
    when the windows do not all have [seq_length] rows, which happens when
    [features] is shorter than [closes]. *)
Definition create_sequences (features : list (list float)) (closes : list float)
    (seq_length look_ahead : nat) : option (list (list (list float)) * list Z) :=
  let start_idx := 200%nat in
  samples ← mapM (sequence_at features closes seq_length look_ahead)
                 (Py.range (start_idx + seq_length) (length closes - look_ahead));
  sequences ← Np.stack (map fst samples);
  Some (sequences, map snd samples).

(** [train_lstm_model(ticker)] from the fetched arrays up to the pair
    [(sequences, labels)]: steps 2 and 3, with the default [seq_length] and
    [look_ahead] of [create_sequences]. *)
Definition train_lstm_model (highs lows closes volumes : list float)
  : option (list (list (list float)) * list Z) :=
  features ← calculate_technical_indicators highs lows closes volumes;
  create_sequences features closes SEQUENCE_LENGTH 6.

End LstmSignal.

(** ** pandas: the mean of a column skips NaN entries *)

Module Pd.

Definition mean (xs : list float) : float :=
  Np.mean (filter (fun x => PrimFloat.is_nan x = false) xs).

End Pd.

(** ** scripts/backtest_models.py *)

Module Backtest.

Local Open Scope float_scope.

Definition ASSETS : list string := ["BTC"; "ETH"; "SOL"; "LTC"]%string.

Definition SEQ_LENGTH : nat := 30.

(** One row of the array returned by [fetch_test_data]: columns
    [Close] and [Volume]. *)
Record row := Row { close : float; volume : float }.

(** The contents of [<asset>_scaler.json]. *)
Record scaler := Scaler { mean0 : float; mean1 : float; std0 : float; std1 : float }.

(** What [ai_strategy] finds on disk for one asset: whether the model file
    exists, the scaler file when it exists, and the ONNX session when it
    loads.  The session's [run] on one window gives [output[0][0][0]], or
    [None] when inference raises.  The record describes an environment in
    which [onnxruntime] can be imported and an existing scaler file holds a
    [mean] and a [std] of two numbers each; an import that fails or a scaler
    file of another content is an uncaught exception of [ai_strategy] that
    this record does not describe. *)
Record artifacts := Artifacts {
  model_exists : bool;
  scaler_file : option scaler;
  session : option (list row -> option float)
}.

(** [actual_direction = 1 if data[i+1, 0] > data[i, 0] else -1] *)
Definition actual_direction (data : list row) (i : nat) : option Z :=
  next ← data !! (i + 1)%nat;
  cur ← data !! i;
  Some (if F64.gt (close next) (close cur) then 1%Z else (-1)%Z).

(** [scaled_data = (data - mean) / std], broadcast over the rows. *)
Definition scale (sc : scaler) (data : list row) : list row :=
  map (fun r => Row ((close r - mean0 sc) / std0 sc) ((volume r - mean1 sc) / std1 sc)) data.

(** The [try / except] of the loop of [ai_strategy]. *)
Definition ai_predicted_direction (run : list row -> option float)
    (scaled_data : list row) (i : nat) : Z :=
  let sequence := Py.slice (i - SEQ_LENGTH) i scaled_data in
  match run sequence, scaled_data !! i with
  | Some predicted_value, Some current =>
      if F64.gt predicted_value (close current) then 1%Z else (-1)%Z
  | _, _ => 0%Z
  end.

(** [ai_strategy(asset, data)]: [None] stands for the pair [(None, None)]. *)
Definition ai_strategy (art : artifacts) (data : list row)
  : option (option (list Z * list Z)) :=
  if negb (model_exists art) then Some None
  else match scaler_file art with
  | None => Some None
  | Some sc =>
    let scaled_data := scale sc data in
    match session art with
    | None => Some None
    | Some run =>
      pairs ← mapM (fun i => a ← actual_direction data i;
                             Some (ai_predicted_direction run scaled_data i, a))
                   (Py.range SEQ_LENGTH (length scaled_data - 1));
      Some (Some (map fst pairs, map snd pairs))
    end
  end.

(** [heuristic_strategy(data)] *)
Definition heuristic_strategy (data : list row) : option (list Z * list Z) :=
  pairs ← mapM (fun i =>
                  let sma_short := Np.mean (map close (Py.slice (i - 5) i data)) in
                  let sma_long := Np.mean (map close (Py.slice (i - 20) i data)) in
                  let predicted_direction :=
                    if F64.gt sma_short sma_long then 1%Z else (-1)%Z in
                  a ← actual_direction data i;
                  Some (predicted_direction, a))
               (Py.range 30 (length data - 1));
  Some (map fst pairs, map snd pairs).

(** [buyhold_strategy(data)] *)
Definition buyhold_strategy (data : list row) : option (list Z * list Z) :=
  pairs ← mapM (fun i => a ← actual_direction data i; Some (1%Z, a))
               (Py.range 30 (length data - 1));
  Some (map fst pairs, map snd pairs).

(** The dictionary returned by [calculate_metrics]. *)
Record metrics := Metrics {
  asset : string;
  strategy : string;
  accuracy : float;
  total_return : float;
  num_predictions : nat
}.

(** [sum([1 for p, a in zip(predictions, actuals) if p == a])] *)
Definition count_correct (predictions actuals : list Z) : nat :=
  foldl Nat.add 0%nat
        (omap (fun pa => if (fst pa =? snd pa)%Z then Some 1%nat else None)
              (zip predictions actuals)).

(** The loop that builds [returns]. *)
Definition simulated_returns (predictions actuals : list Z) : list float :=
  foldl (fun returns pa =>
           if (fst pa =? snd pa)%Z then returns ++ [0.01] else returns ++ [-0.01])
        [] (zip predictions actuals).

(** [calculate_metrics(predictions, actuals, strategy_name, asset)].  The
    outer [None] is the [TypeError] of [zip] on a missing [actuals]; the
    inner [None] is the function's [return None]. *)
Definition calculate_metrics (predictions actuals : option (list Z))
    (strategy_name asset : string) : option (option metrics) :=
  match predictions with
  | None => Some None
  | Some predictions =>
    if (length predictions =? 0)%nat then Some None
    else
      actuals ← actuals;
      let correct := count_correct predictions actuals in
      let accuracy := (Np.of_nat correct / Np.of_nat (length predictions)) * 100 in
      let returns := simulated_returns predictions actuals in
      let total_return := Py.sum returns * 100 in
      Some (Some (Metrics asset strategy_name
                          (Py.round2 accuracy) (Py.round2 total_return)
                          (length predictions)))
  end.

(** [if m: results.append(m)] *)
Definition append_if (results : list metrics) (m : option metrics) : list metrics :=
  match m with
  | Some m => results ++ [m]
  | None => results
  end.

(** The body of the loop over [ASSETS] in [main].  [fetched] is the result
    of [fetch_test_data]. *)
Definition run_asset (fetched : option (list row)) (art : artifacts)
    (asset : string) (results : list metrics) : option (list metrics) :=
  match fetched with
  | None => Some results
  | Some data =>
    ai ← ai_strategy art data;
    ai_metrics ← calculate_metrics (fst <$> ai) (snd <$> ai) "AI Model" asset;
    let results := append_if results ai_metrics in
    heur ← heuristic_strategy data;
    heur_metrics ← calculate_metrics (Some (fst heur)) (Some (snd heur)) "Heuristic" asset;
    let results := append_if results heur_metrics in
    bh ← buyhold_strategy data;
    bh_metrics ← calculate_metrics (Some (fst bh)) (Some (snd bh)) "Buy & Hold" asset;
    Some (append_if results bh_metrics)
  end.

(** [df[df['strategy'] == name]] *)
Definition of_strategy (name : string) (results : list metrics) : list metrics :=
  filter (fun m => strategy m = name) results.

(** One line of the "Strategy Performance Summary". *)
Record summary_line := SummaryLine {
  line_strategy : string;
  avg_acc : float;
  avg_ret : float
}.

(** The summary loop of [main]: a strategy without records prints nothing. *)
Definition summary (results : list metrics) : list summary_line :=
  omap (fun name =>
          let strategy_data := of_strategy name results in
          if (0 <? length strategy_data)%nat
          then Some (SummaryLine name
                       (Pd.mean (map accuracy strategy_data))
                       (Pd.mean (map total_return strategy_data)))
          else None)
       ["AI Model"; "Heuristic"; "Buy & Hold"]%string.

(** The 55% check at the end of [main]: [Some true] is SUCCESS, [Some false]
    is FAILURE, [None] when no AI record exists. *)
Definition verdict (results : list metrics) : option bool :=
  let ai_results := of_strategy "AI Model" results in
  if (0 <? length ai_results)%nat
  then Some (PrimFloat.leb 55 (Pd.mean (map accuracy ai_results)))
  else None.

(** What one run of [main] prints and saves. *)
Record report := Report {
  results : list metrics;
  lines : list summary_line;
  passed : option bool
}.

(** [main()], given what [fetch_test_data] returns and what is on disk for
    each asset.  An empty [results] makes [pd.DataFrame(results)] a frame
    without columns, and [df['strategy']] raises [KeyError]. *)
Definition main (fetch : string -> option (list row)) (disk : string -> artifacts)
  : option report :=
  results ← foldl (fun acc asset => results ← acc;
                                    run_asset (fetch asset) (disk asset) asset results)
                  (Some []) ASSETS;
  match results with
  | [] => None
  | _ => Some (Report results (summary results) (verdict results))
  end.

End Backtest.

(** ** scripts/train_ltc_agent.py

    The same [create_sequences] is in [dist/scripts/train_sol_agent.py] and
    [dist/scripts/train_lstm.py]; the script writes the [ltc_v1.onnx] and
    [ltc_scaler.json] that [ai_strategy] loads. *)

Module LtcAgent.

Definition SEQ_LENGTH : nat := 30.

(** The body of the loop of [create_sequences]: the window [data[i:i+seq_length]]
    and the target [data[i+seq_length][0]]. *)
Definition sequence_at (data : list Backtest.row) (seq_length i : nat)
  : option (list Backtest.row * float) :=
  let x := Py.slice i (i + seq_length) data in
  y ← Backtest.close <$> data !! (i + seq_length)%nat;
  Some (x, y).

(** [create_sequences(data, seq_length)]: the pair [(xs, ys)]. *)
Definition create_sequences (data : list Backtest.row) (seq_length : nat)
  : option (list (list Backtest.row) * list float) :=
  samples ← mapM (sequence_at data seq_length) (Py.range 0 (length data - seq_length));
  Some (map fst samples, map snd samples).

End LtcAgent.

(** ** dist/scripts/train_enhanced_24h.py *)

Module Enhanced24h.

(** [history_prices.append(price)], then [pop(0)] past 1000 entries. *)
Definition record_price (history_prices : list float) (price : float) : list float :=
  let history_prices := history_prices ++ [price] in
  if (1000 <? length history_prices)%nat then drop 1 history_prices
  else history_prices.

(** [train_step()] on the module state [history_prices], given what
    [fetch_price] returns, up to the batch [(X, y)] it hands to the model:
    the new state, and the batch when the step trains. *)
Definition train_step (history_prices : list float) (fetched : option float)
  : list float * option (list float * list float) :=
  match fetched with
  | None => (history_prices, None)
  | Some price =>
    let history_prices := record_price history_prices price in
    if (length history_prices <? 5)%nat then (history_prices, None)
    else
      let X := take (length history_prices - 1) history_prices in
      let y := drop 1 history_prices in
      (history_prices, Some (X, y))
  end.

(** The state after the loop of [main] has called [train_step] once per
    entry of [fetches], starting from the empty history. *)
Definition history_after (fetches : list (option float)) : list float :=
  foldl (fun history_prices fetched => fst (train_step history_prices fetched))
        [] fetches.

End Enhanced24h.

(** * Statements and inputs used by the properties *)

(** Closes whose one-candle forward returns past the warm-up are exactly
    +2.0%, then +0.49%, -5.4% and +1.03%. *)
Definition closes_boundary : list float :=
  (replicate 201 100 ++ [102; 102.5; 97; 98])%float.

(** A feature array of zero rows, one row per close of [closes_boundary]. *)
Definition boundary_features : list (list float) :=
  replicate 205 (replicate 11 0%float).

(** What the specification asks of the realised direction [d] of a step
    from [cur] to [next]. *)
Definition direction_law (next cur : float) (d : Z) : Prop :=
  (d = 1%Z <-> F64.gt next cur = true) /\
  (d = (-1)%Z <-> F64.gt next cur = false) /\
  (PrimFloat.eqb next cur = true -> d = (-1)%Z) /\
  d <> 0%Z.

(** Whether the three artifacts [ai_strategy] needs are all usable. *)
Definition artifacts_present (art : Backtest.artifacts) : bool :=
  Backtest.model_exists art && bool_decide (is_Some (Backtest.scaler_file art))
  && bool_decide (is_Some (Backtest.session art)).

(** The records one asset contributes to [results]. *)
Definition asset_records (fetched : option (list Backtest.row))
    (art : Backtest.artifacts) (asset : string) : list Backtest.metrics :=
  default [] (Backtest.run_asset fetched art asset []).

(** All records of a run, in the order [main] appends them. *)
Definition all_records (fetch : string -> option (list Backtest.row))
    (disk : string -> Backtest.artifacts) : list Backtest.metrics :=
  concat (map (fun a => asset_records (fetch a) (disk a) a) Backtest.ASSETS).

(** Two assets with different sample counts: after 31 flat candles BTC
    rises once (one prediction), ETH falls three times (three predictions). *)
Definition btc_one_up : list Backtest.row :=
  replicate 31 (Backtest.Row 100 5) ++ [Backtest.Row 101 5].

Definition eth_three_down : list Backtest.row :=
  replicate 31 (Backtest.Row 100 5)
  ++ [Backtest.Row 99 5; Backtest.Row 98 5; Backtest.Row 97 5].

Definition fetch_two (asset : string) : option (list Backtest.row) :=
  if String.eqb asset "BTC" then Some btc_one_up
  else if String.eqb asset "ETH" then Some eth_three_down
  else None.

Definition empty_disk (asset : string) : Backtest.artifacts :=
  Backtest.Artifacts false None None.

(** The guards of [calculate_features]: each ratio whose denominator is
    exactly zero takes its neutral value. *)
Definition multi_guards (highs lows closes volumes : list float) (i : nat)
    (r : list float) : Prop :=
  (forall c, closes !! i = Some c -> PrimFloat.eqb c 0 = true ->
     r !! 1 = Some 0%float /\ r !! 2 = Some 0%float /\ r !! 8 = Some 0%float) /\
  (PrimFloat.eqb (MultiTimeframe.bb_upper closes i - MultiTimeframe.bb_lower closes i) 0
   = true -> r !! 3 = Some 0.5%float) /\
  (forall c10, closes !! (i - 10) = Some c10 -> PrimFloat.eqb c10 0 = true ->
     r !! 6 = Some 0%float) /\
  (PrimFloat.eqb (Np.mean (Py.slice (i - 19) (i + 1) volumes)) 0 = true ->
     r !! 7 = Some 1%float) /\
  (forall high_14 low_14,
     Np.max (Py.slice (i - 13) (i + 1) highs) = Some high_14 ->
     Np.min (Py.slice (i - 13) (i + 1) lows) = Some low_14 ->
     PrimFloat.eqb (high_14 - low_14) 0 = true ->
     MultiTimeframe.stochastic highs lows closes i = Some 50%float /\
     r !! 9 = Some 0.5%float) /\
  (forall v5, volumes !! (i - 5) = Some v5 -> PrimFloat.eqb v5 0 = true ->
     r !! 10 = Some 0%float) /\
  (PrimFloat.eqb (MultiTimeframe.rsi_avg_loss closes i) 0 = true ->
     r !! 0 = Some 0%float).

(** The guards of [calculate_technical_indicators] at a row past the
    warm-up. *)
Definition lstm_guards (highs lows closes volumes : list float) (i : nat)
    (r : list float) : Prop :=
  (forall losses, LstmSignal.rsi_losses closes i = Some losses ->
     PrimFloat.eqb losses 0 = true -> r !! 0 = Some 100%float) /\
  (PrimFloat.eqb (Np.mean (Py.slice (i - 20) i closes)) 0 = true ->
     r !! 2 = Some 0%float) /\
  (PrimFloat.eqb (LstmSignal.bb_upper closes i - LstmSignal.bb_lower closes i) 0 = true ->
     r !! 3 = Some 0.5%float) /\
  (PrimFloat.eqb (Np.mean (Py.slice (i - 50) i closes)) 0 = true ->
     r !! 4 = Some 0%float) /\
  (PrimFloat.eqb (Np.mean (Py.slice (i - 200) i closes)) 0 = true ->
     r !! 5 = Some 0%float) /\
  (forall c5, closes !! (i - 5) = Some c5 -> PrimFloat.eqb c5 0 = true ->
     r !! 6 = Some 0%float) /\
  (PrimFloat.eqb (Np.mean (Py.slice (i - 20) i volumes)) 0 = true ->
     r !! 7 = Some 1%float) /\
  (forall c, closes !! i = Some c -> PrimFloat.eqb c 0 = true ->
     r !! 8 = Some 0%float) /\
  (forall lowest highest,
     Np.min (Py.slice (i - 14) i lows) = Some lowest ->
     Np.max (Py.slice (i - 14) i highs) = Some highest ->
     PrimFloat.eqb (highest - lowest) 0 = true -> r !! 9 = Some 50%float) /\
  r !! 10 = Some 0%float.

(** A flat market: 201 candles at price 100 and volume 0. *)
Definition flat_candles : list MultiTimeframe.candle :=
  replicate 201 (MultiTimeframe.Candle 100 100 100 100 0).

Definition flat_prices : list float := replicate 201 100%float.

Definition flat_volumes : list float := replicate 201 0%float.

(** A series of finite prices, one of them the smallest positive float. *)
Definition tiny_close_candles : list MultiTimeframe.candle :=
  replicate 190 (MultiTimeframe.Candle 100 100 100 100 5)
  ++ [MultiTimeframe.Candle 100 100 100 0x1p-1074 5]
  ++ replicate 10 (MultiTimeframe.Candle 100 100 100 100 5).

Definition finite_candle (c : MultiTimeframe.candle) : bool :=
  PrimFloat.is_finite (MultiTimeframe.open_ c) && PrimFloat.is_finite (MultiTimeframe.high c)
  && PrimFloat.is_finite (MultiTimeframe.low c) && PrimFloat.is_finite (MultiTimeframe.close c)
  && PrimFloat.is_finite (MultiTimeframe.volume c).

(** A steadily rising market: candle [k] trades at [100 + k]. *)
Definition rising_prices : list float :=
  map (fun k => Np.of_nat (100 + k)) (seq 0 201).

Definition rising_candles : list MultiTimeframe.candle :=
  map (fun p => MultiTimeframe.Candle p p p p 5) rising_prices.

(** The ATR of the specification: the mean of the true ranges of the 14
    candles up to candle [i], over [close[i]], and 0 when [close[i]] is 0. *)
Definition atr_mean_of_window (highs lows closes : list float) (i : nat) : option float :=
  trs ← mapM (MultiTimeframe.true_range highs lows closes) (Py.range (i - 13) (i + 1));
  c ← closes !! i;
  Some (if F64.ne0 c then (Np.mean trs / c)%float else 0%float).

(** A flat market whose candle 195 alone has a range: its high is 102. *)
Definition spike_candles : list MultiTimeframe.candle :=
  replicate 195 (MultiTimeframe.Candle 100 100 100 100 5)
  ++ [MultiTimeframe.Candle 100 102 100 100 5]
  ++ replicate 5 (MultiTimeframe.Candle 100 100 100 100 5).

Definition one_candle : list MultiTimeframe.candle :=
  [MultiTimeframe.Candle 100 101 99 100 5].

Definition zero_features : list (list float) :=
  replicate 263 (replicate 11 0%float).

Definition prices_263 : list float := replicate 263 100%float.

(** A session that always predicts the scaled value 0. *)
Definition constant_session : Backtest.artifacts :=
  Backtest.Artifacts true (Some (Backtest.Scaler 100 5 1 1)) (Some (fun _ => Some 0%float)).

(** BTC has data but ETH has too few candles for one prediction. *)
Definition fetch_short (asset : string) : option (list Backtest.row) :=
  if String.eqb asset "BTC" then Some btc_one_up
  else if String.eqb asset "ETH" then Some (replicate 31 (Backtest.Row 100 5))
  else None.

(** The realised direction of step [30 + k], when both rows exist. *)
Definition realised (data : list Backtest.row) (k : nat) : Z :=
  match data !! (30 + k + 1), data !! (30 + k) with
  | Some next, Some cur =>
      if F64.gt (Backtest.close next) (Backtest.close cur) then 1%Z else (-1)%Z
  | _, _ => 0%Z
  end.

(** A session that raises on every window. *)
Definition failing_session : Backtest.artifacts :=
  Backtest.Artifacts true (Some (Backtest.Scaler 100 5 1 1)) (Some (fun _ => None)).

(** An asset that contributes no record: its fetch failed, or its series is
    too short for one prediction. *)
Definition no_samples (fetched : option (list Backtest.row)) : Prop :=
  match fetched with
  | None => True
  | Some data => length data <= 31
  end.

(** Whether some record carries the strategy [name]. *)
Definition has_strategy (rs : list Backtest.metrics) (name : string) : bool :=
  (0 <? length (Backtest.of_strategy name rs)).

(** Candles that trade at the prices of [closes_boundary]. *)
Definition boundary_candles : list MultiTimeframe.candle :=
  map (fun p => MultiTimeframe.Candle p p p p 5) closes_boundary.

(** A flat series long enough for two windows of [train_lstm_model]. *)
Definition prices_268 : list float := replicate 268 100%float.

(** The prediction of [heuristic_strategy] at index [i]: up when the mean
    of the last 5 closes is above the mean of the last 20. *)
Definition heuristic_prediction (data : list Backtest.row) (i : nat) : Z :=
  if F64.gt (Np.mean (map Backtest.close (Py.slice (i - 5) i data)))
            (Np.mean (map Backtest.close (Py.slice (i - 20) i data)))
  then 1%Z else (-1)%Z.

(** Every asset returns 31 flat candles: the strategies run on each but
    have no step to score. *)
Definition fetch_flat_31 (asset : string) : option (list Backtest.row) :=
  Some (replicate 31 (Backtest.Row 100 5)).

(** ** The partial sums of [returns]

    The total of [calculate_metrics] is a binary64 sum of [+0.01] and
    [-0.01].  [explore] lists the sums that sequences of a bounded length
    can reach, each with its count of correct pairs minus incorrect ones. *)

Module Returns.

(** A partial sum of [returns], and the number of correct pairs minus the
    number of incorrect ones among the pairs summed. *)
Definition state : Type := (float * Z)%type.

Definition gain (st : state) : state := ((fst st + 0.01)%float, (snd st + 1)%Z).

Definition loss (st : state) : state := ((fst st + -0.01)%float, (snd st - 1)%Z).

(** The state after the pairs whose matches are [l]. *)
Definition run (l : list bool) (st : state) : state :=
  foldl (fun st (b : bool) => if b then gain st else loss st) st l.

Definition same (x y : state) : bool :=
  PrimFloat.Leibniz.eqb (fst x) (fst y) && (snd x =? snd y)%Z.

(** Merging two lists ordered by their sums. *)
Fixpoint merge (l1 : list state) : list state -> list state :=
  fix aux (l2 : list state) : list state :=
    match l1, l2 with
    | [], _ => l2
    | _, [] => l1
    | x :: t1, y :: t2 =>
        if PrimFloat.leb (fst x) (fst y) then x :: merge t1 l2 else y :: aux t2
    end.

(** Dropping a state that repeats its neighbour. *)
Fixpoint dedup (l : list state) : list state :=
  match l with
  | x :: (y :: _) as t => if same x y then dedup t else x :: dedup t
  | _ => l
  end.

(** The states of [l1] that [l2] does not hold, both ordered by their sums. *)
Fixpoint diff (l1 : list state) : list state -> list state :=
  fix aux (l2 : list state) : list state :=
    match l1, l2 with
    | [], _ => []
    | _, [] => l1
    | x :: t1, y :: t2 =>
        if same x y then diff t1 l2
        else if PrimFloat.ltb (fst y) (fst x) then aux t2
        else x :: diff t1 l2
    end.

(** The successors of the states of [frontier]. *)
Definition next (frontier : list state) : list state :=
  dedup (merge (map gain frontier) (map loss frontier)).





End Returns.

(** * Properties *)

(** ** Binary64 comparisons *)

Module F64Facts.

Import F64.

Lemma SFcompare_antisym (x y : spec_float) :
  SFcompare y x = option_map CompOpp (SFcompare x y).
Proof.
  destruct x as [sx|sx| |sx mx ex], y as [sy|sy| |sy my ey]; simpl;
    try destruct sx; try destruct sy; simpl; try reflexivity.
  all: rewrite (Z.compare_antisym ex ey); destruct (ex ?= ey)%Z; simpl;
    try reflexivity.
  all: rewrite Pos.compare_cont_antisym; simpl; try reflexivity.
  now rewrite CompOpp_involutive.
Qed.

Lemma eqb_sym (x y : float) : PrimFloat.eqb x y = PrimFloat.eqb y x.
Proof.
  rewrite !FloatAxioms.eqb_spec. unfold SFeqb.
  rewrite (SFcompare_antisym (Prim2SF x) (Prim2SF y)).
  now destruct (SFcompare (Prim2SF x) (Prim2SF y)) as [[]|].
Qed.

(** Equal floats are not ordered, in either direction. *)
Lemma eqb_not_ltb (x y : float) :
  PrimFloat.eqb x y = true -> (x <? y)%float = false /\ (y <? x)%float = false.
Proof.
  rewrite FloatAxioms.eqb_spec, !FloatAxioms.ltb_spec. unfold SFeqb, SFltb.
  rewrite (SFcompare_antisym (Prim2SF x) (Prim2SF y)).
  destruct (SFcompare (Prim2SF x) (Prim2SF y)) as [[]|]; simpl; intros;
    split; congruence.
Qed.

(** Anything above a positive number is positive, anything below a
    negative number is negative. *)
Lemma ltb_pos_l (a r : float) :
  sf_pos (Prim2SF a) = true -> (a <? r)%float = true -> sf_pos (Prim2SF r) = true.
Proof.
  rewrite FloatAxioms.ltb_spec. unfold SFltb.
  destruct (Prim2SF a) as [sa|sa| |sa ma ea], (Prim2SF r) as [sr|sr| |sr mr er];
    simpl; try destruct sa; try destruct sr; simpl; congruence.
Qed.

Lemma ltb_neg_r (b r : float) :
  sf_neg (Prim2SF b) = true -> (r <? b)%float = true -> sf_neg (Prim2SF r) = true.
Proof.
  rewrite FloatAxioms.ltb_spec. unfold SFltb.
  destruct (Prim2SF b) as [sb|sb| |sb mb eb], (Prim2SF r) as [sr|sr| |sr mr er];
    simpl; try destruct sb; try destruct sr; simpl; congruence.
Qed.

Lemma eqb_pos_l (a r : float) :
  sf_pos (Prim2SF a) = true -> PrimFloat.eqb a r = true -> sf_pos (Prim2SF r) = true.
Proof.
  rewrite FloatAxioms.eqb_spec. unfold SFeqb.
  destruct (Prim2SF a) as [sa|sa| |sa ma ea], (Prim2SF r) as [sr|sr| |sr mr er];
    simpl; try destruct sa; try destruct sr; simpl; congruence.
Qed.

Lemma sf_pos_neg_excl (x : spec_float) : sf_pos x = true -> sf_neg x = true -> False.
Proof. destruct x as [s|s| |s m e]; simpl; try destruct s; simpl; congruence. Qed.

(** A value cannot lie above a positive bound and below a negative one. *)
Lemma ltb_band_excl (a b r : float) :
  sf_pos (Prim2SF a) = true -> sf_neg (Prim2SF b) = true ->
  (a <? r)%float = true -> (r <? b)%float = true -> False.
Proof.
  intros Ha Hb H1 H2.
  eapply sf_pos_neg_excl; [ exact (ltb_pos_l _ _ Ha H1) | exact (ltb_neg_r _ _ Hb H2) ].
Qed.

End F64Facts.

(** ** Ranges, slices and loops *)

Module PyFacts.

Import Py.

Lemma range_length a b : length (range a b) = b - a.
Proof. apply length_seq. Qed.

Lemma range_lookup a b k : k < b - a -> range a b !! k = Some (a + k).
Proof. intros. unfold range. now apply lookup_seq_lt. Qed.

Lemma range_lookup_inv a b k i : range a b !! k = Some i -> i = a + k /\ k < b - a.
Proof. unfold range. now intros ?%lookup_seq. Qed.

Lemma slice_length {A} a b (xs : list A) :
  b <= length xs -> length (slice a b xs) = b - a.
Proof. intros. unfold slice. rewrite length_take, length_drop. lia. Qed.

(** A loop over [range(a, b)] that appends [f(i)] at each step: when no
    step raises, it returns [b - a] values, the [k]-th being [f(a + k)]. *)
Lemma mapM_range {B} (f : nat -> option B) (a b : nat) :
  (forall i, a <= i < b -> is_Some (f i)) ->
  exists r, mapM f (range a b) = Some r /\ length r = b - a /\
            forall k, k < b - a -> r !! k = f (a + k).
Proof.
  intros Hall.
  assert (is_Some (mapM f (range a b))) as [r Hr].
  { apply mapM_is_Some, Forall_lookup. intros i z Hz.
    apply range_lookup_inv in Hz. apply Hall. lia. }
  exists r. split; [done|]. apply mapM_Some in Hr.
  pose proof (Forall2_length _ _ _ Hr) as Hlen. rewrite range_length in Hlen.
  split; [lia|]. intros k Hk.
  destruct (Forall2_lookup_l _ _ _ k (a + k) Hr (range_lookup a b k Hk))
    as (y & Hy & Hfy).
  congruence.
Qed.

Lemma fill_snoc {A} (f : nat -> option A) (init : list A) (idx : list nat) (i : nat) :
  fill f init (idx ++ [i]) = (arr ← fill f init idx; x ← f i; assign arr i x).
Proof. unfold fill. now rewrite foldl_app. Qed.

(** Filling the rows [a .. b-1] of a preallocated array: when no step
    raises, row [i] of the result is [f(i)] inside the range and the initial
    row outside it. *)
Lemma fill_range {A} (f : nat -> option A) (init : list A) (a b : nat) :
  b <= length init ->
  (forall i, a <= i < b -> is_Some (f i)) ->
  exists r, fill f init (range a b) = Some r /\ length r = length init /\
            (forall i, a <= i < b -> r !! i = f i) /\
            (forall i, ~ (a <= i < b) -> r !! i = init !! i).
Proof.
  intros Hb Hall. unfold range.
  remember (b - a) as m eqn:Hm. revert b Hb Hall Hm.
  induction m as [|m IH]; intros b Hb Hall Hm.
  - exists init. split; [reflexivity|]. split; [done|].
    split; [intros i Hi; lia|done].
  - destruct (IH (b - 1)) as (r & Hr & Hlen & Hin & Hout); [lia| |lia|].
    { intros i Hi. apply Hall. lia. }
    destruct (Hall (a + m)) as [x Hx]; [lia|].
    exists (<[a + m := x]> r).
    rewrite seq_S, fill_snoc, Hr. cbn [mbind option_bind]. rewrite Hx.
    cbn [mbind option_bind]. unfold assign. rewrite decide_True by lia.
    split; [reflexivity|]. split; [now rewrite length_insert|].
    split.
    + intros i Hi. destruct (decide (i = a + m)) as [->|Hne].
      * rewrite list_lookup_insert_eq by lia. done.
      * rewrite list_lookup_insert_ne by done. apply Hin. lia.
    + intros i Hi. rewrite list_lookup_insert_ne by lia. apply Hout. lia.
Qed.

Lemma range_NoDup a b : NoDup (range a b).
Proof. apply NoDup_seq. Qed.

Lemma range_stride a b k i j :
  range a b !! k = Some i -> range a b !! S k = Some j -> j = S i.
Proof. intros [-> _]%range_lookup_inv [-> _]%range_lookup_inv. lia. Qed.

Lemma range_increasing a b k1 k2 i j :
  range a b !! k1 = Some i -> range a b !! k2 = Some j -> k1 < k2 -> i < j.
Proof. intros [-> _]%range_lookup_inv [-> _]%range_lookup_inv. lia. Qed.

End PyFacts.

(** ** The label ladder *)

Module LabelFacts.

Import Label.

Lemma of_return_law (t r : float) :
  F64.sf_pos (Prim2SF t) = true -> F64.sf_neg (Prim2SF (- t)) = true ->
  law t r (of_return t r).
Proof.
  intros Ht Hnt. unfold law, of_return, BUY, SELL, HOLD.
  destruct (t <? r)%float eqn:Hbuy; destruct (r <? - t)%float eqn:Hsell.
  - exfalso. exact (F64Facts.ltb_band_excl _ _ _ Ht Hnt Hbuy Hsell).
  - split; [|split; [|split]]; [ tauto | split; congruence | split; [congruence | intros []; congruence] | ].
    intros Heq. apply F64Facts.eqb_not_ltb in Heq. destruct Heq; congruence.
  - split; [|split; [|split]]; [ split; congruence | tauto | split; [congruence | intros []; congruence] | ].
    intros Heq. exfalso.
    apply (F64Facts.sf_pos_neg_excl (Prim2SF r)).
    + apply (F64Facts.eqb_pos_l t r); [done|]. now rewrite F64Facts.eqb_sym.
    + exact (F64Facts.ltb_neg_r _ _ Hnt Hsell).
  - split; [|split; [|split]]; [ split; congruence | split; congruence | tauto | done ].
Qed.

End LabelFacts.

(** ** NumPy reductions *)

Module NpFacts.

Import Np.

Lemma max_is_Some (xs : list float) : (0 < length xs)%nat -> is_Some (max xs).
Proof. destruct xs; simpl; [lia | eauto]. Qed.

Lemma pairwise_sum_fuel (f1 f2 : nat) (a : list float) :
  (length a <= f1)%nat -> (length a <= f2)%nat ->
  pairwise_sum f1 a = pairwise_sum f2 a.
Proof.
  revert f2 a. induction f1 as [|f1 IH]; intros f2 a H1 H2.
  - destruct a; [|simpl in H1; lia]. destruct f2; reflexivity.
  - destruct f2 as [|f2].
    + destruct a; [|simpl in H2; lia]. reflexivity.
    + cbn [pairwise_sum]. cbv zeta.
      destruct (length a <=? 128)%nat eqn:E; [reflexivity|].
      apply Nat.leb_gt in E.
      assert (1 <= length a / 2 - (length a / 2) mod 8 <= length a - 1)%nat as Hn2.
      { pose proof (Nat.div_mod_eq (length a) 2).
        pose proof (Nat.mod_upper_bound (length a) 2).
        pose proof (Nat.mod_upper_bound (length a / 2) 8). lia. }
      rewrite (IH f2 (take _ a)), (IH f2 (drop _ a)); [reflexivity| | | |];
        rewrite ?length_take, ?length_drop; lia.
Qed.

Lemma stack_uniform {A} (n : nat) (windows : list (list A)) :
  Forall (fun w => length w = n) windows -> stack windows = Some windows.
Proof.
  intros Hall. destruct windows as [|w ws]; [reflexivity|].
  apply Forall_cons in Hall as [Hw Hws]. unfold stack.
  assert (forallb (fun w' => (length w' =? length w)%nat) ws = true) as ->; [|done].
  rewrite Hw. clear Hw. induction Hws as [|w' ws Hw' _ IH]; [reflexivity|].
  cbn [forallb]. rewrite IH, Hw', Nat.eqb_refl. reflexivity.
Qed.

Lemma min_is_Some (xs : list float) : (0 < length xs)%nat -> is_Some (min xs).
Proof. destruct xs; simpl; [lia | eauto]. Qed.

End NpFacts.

(** ** Labelling *)

Lemma multi_label_at (closes : list float) (h i : nat) :
  MultiTimeframe.label_at closes h i =
  (fut ← closes !! (i + h); cur ← closes !! i;
   Some (Label.of_return 2.0 (Label.forward_return cur fut))).
Proof. reflexivity. Qed.

Lemma lstm_sequence_at features (closes : list float) (seq_length h i : nat) :
  LstmSignal.sequence_at features closes seq_length h i =
  (cur ← closes !! i; fut ← closes !! (i + h);
   Some (Py.slice (i - seq_length) i features,
         Label.of_return 0.15 (Label.forward_return cur fut))).
Proof. reflexivity. Qed.

Lemma law_2_0 r : Label.law 2.0 r (Label.of_return 2.0 r).
Proof. apply LabelFacts.of_return_law; vm_compute; reflexivity. Qed.

Lemma law_0_15 r : Label.law 0.15 r (Label.of_return 0.15 r).
Proof. apply LabelFacts.of_return_law; vm_compute; reflexivity. Qed.

Lemma create_labels_at (closes : list float) (h k : nat) :
  200 + k + h < length closes ->
  exists cur fut labels,
    closes !! (200 + k) = Some cur /\
    closes !! (200 + k + h) = Some fut /\
    MultiTimeframe.create_labels closes h = Some labels /\
    length labels = length closes - h - 200 /\
    labels !! k = Some (Label.of_return 2.0 (Label.forward_return cur fut)).
Proof.
  intros Hk.
  destruct (lookup_lt_is_Some_2 closes (200 + k)) as [cur Hcur]; [lia|].
  destruct (lookup_lt_is_Some_2 closes (200 + k + h)) as [fut Hfut]; [lia|].
  exists cur, fut.
  destruct (PyFacts.mapM_range (MultiTimeframe.label_at closes h) 200 (length closes - h))
    as (labels & Hl & Hlen & Hnth).
  { intros i Hi. rewrite multi_label_at.
    destruct (lookup_lt_is_Some_2 closes (i + h)) as [x ->]; [lia|].
    destruct (lookup_lt_is_Some_2 closes i) as [y ->]; [lia|]. simpl. eauto. }
  exists labels. repeat split; try done.
  rewrite Hnth by lia. rewrite multi_label_at, Hfut, Hcur. reflexivity.
Qed.

Lemma create_sequences_at features (closes : list float) (seq_length h : nat) :
  length closes - h <= length features ->
  exists seqs labels,
    LstmSignal.create_sequences features closes seq_length h = Some (seqs, labels) /\
    length seqs = length closes - h - (200 + seq_length) /\
    length labels = length seqs /\
    forall k, k < length seqs ->
      exists cur fut,
        closes !! (200 + seq_length + k) = Some cur /\
        closes !! (200 + seq_length + k + h) = Some fut /\
        seqs !! k = Some (Py.slice (200 + k) (200 + seq_length + k) features) /\
        labels !! k = Some (Label.of_return 0.15 (Label.forward_return cur fut)).
Proof.
  intros Hf. unfold LstmSignal.create_sequences.
  destruct (PyFacts.mapM_range (LstmSignal.sequence_at features closes seq_length h)
              (200 + seq_length) (length closes - h))
    as (samples & Hs & Hlen & Hnth).
  { intros i Hi. rewrite lstm_sequence_at.
    destruct (lookup_lt_is_Some_2 closes i) as [x ->]; [lia|].
    destruct (lookup_lt_is_Some_2 closes (i + h)) as [y ->]; [lia|]. simpl. eauto. }
  assert (forall k, k < length samples ->
            exists cur fut,
              closes !! (200 + seq_length + k) = Some cur /\
              closes !! (200 + seq_length + k + h) = Some fut /\
              samples !! k = Some (Py.slice (200 + k) (200 + seq_length + k) features,
                                   Label.of_return 0.15 (Label.forward_return cur fut)))
    as Hsample.
  { intros k Hk.
    destruct (lookup_lt_is_Some_2 closes (200 + seq_length + k)) as [cur Hcur]; [lia|].
    destruct (lookup_lt_is_Some_2 closes (200 + seq_length + k + h)) as [fut Hfut]; [lia|].
    exists cur, fut. split; [done|]. split; [done|].
    assert (200 + seq_length + k - seq_length = 200 + k) as E by lia.
    rewrite Hnth by lia. rewrite lstm_sequence_at, Hcur, Hfut, E. reflexivity. }
  cbv zeta. rewrite Hs. cbn [mbind option_bind].
  rewrite (NpFacts.stack_uniform seq_length).
  2:{ apply Forall_lookup. intros k w Hw.
      assert (k < length samples) as Hk.
      { apply lookup_lt_Some in Hw. now rewrite length_map in Hw. }
      destruct (Hsample k Hk) as (cur & fut & _ & _ & Hk').
      rewrite list_lookup_fmap, Hk' in Hw. cbn [fmap option_fmap option_map fst] in Hw.
      assert (w = Py.slice (200 + k) (200 + seq_length + k) features) as ->
        by congruence.
      rewrite PyFacts.slice_length; lia. }
  cbn [mbind option_bind].
  eexists _, _. split; [reflexivity|].
  rewrite !length_map. repeat split; try done.
  intros k Hk. destruct (Hsample k Hk) as (cur & fut & Hcur & Hfut & Hk').
  exists cur, fut. split; [done|]. split; [done|].
  rewrite !list_lookup_fmap, Hk'. split; reflexivity.
Qed.

(** C1 -- In [create_labels] (threshold 2.0) and in [create_sequences]
    (threshold 0.15, on a feature array with one row per close) the label of
    an anchor is BUY exactly when the forward return
    [(close[i+h] - close[i]) / close[i] * 100] is strictly above the
    threshold, SELL exactly when it is strictly below its negation, and
    HOLD otherwise; a return equal to the threshold gives HOLD. *)
Theorem label_law_holds :
  (forall (closes : list float) (h k : nat),
     200 + k + h < length closes ->
     exists cur fut labels l,
       closes !! (200 + k) = Some cur /\
       closes !! (200 + k + h) = Some fut /\
       MultiTimeframe.create_labels closes h = Some labels /\
       labels !! k = Some l /\
       Label.law 2.0 (Label.forward_return cur fut) l) /\
  (forall (features : list (list float)) (closes : list float) (seq_length h k : nat),
     length features = length closes ->
     200 + seq_length + k + h < length closes ->
     exists cur fut seqs labels l,
       closes !! (200 + seq_length + k) = Some cur /\
       closes !! (200 + seq_length + k + h) = Some fut /\
       LstmSignal.create_sequences features closes seq_length h = Some (seqs, labels) /\
       labels !! k = Some l /\
       Label.law 0.15 (Label.forward_return cur fut) l).
Proof.
  split.
  - intros closes h k Hk.
    destruct (create_labels_at closes h k Hk) as (cur & fut & labels & ? & ? & ? & ? & ?).
    exists cur, fut, labels, (Label.of_return 2.0 (Label.forward_return cur fut)).
    do 4 (split; [done|]). apply law_2_0.
  - intros features closes seq_length h k Hfc Hk.
    destruct (create_sequences_at features closes seq_length h)
      as (seqs & labels & Hcs & Hlen & Hll & Hnth); [lia|].
    destruct (Hnth k) as (cur & fut & ? & ? & ? & ?); [lia|].
    exists cur, fut, seqs, labels, (Label.of_return 0.15 (Label.forward_return cur fut)).
    do 4 (split; [done|]). apply law_0_15.
Qed.

Lemma label_law_holds_witness :
  (200 + 0 + 1 < length closes_boundary /\
   exists cur fut labels l,
     closes_boundary !! (200 + 0) = Some cur /\
     closes_boundary !! (200 + 0 + 1) = Some fut /\
     MultiTimeframe.create_labels closes_boundary 1 = Some labels /\
     labels !! 0 = Some l /\
     Label.law 2.0 (Label.forward_return cur fut) l) /\
  (length boundary_features = length closes_boundary /\
   200 + 1 + 0 + 1 < length closes_boundary /\
   exists cur fut seqs labels l,
     closes_boundary !! (200 + 1 + 0) = Some cur /\
     closes_boundary !! (200 + 1 + 0 + 1) = Some fut /\
     LstmSignal.create_sequences boundary_features closes_boundary 1 1
       = Some (seqs, labels) /\
     labels !! 0 = Some l /\
     Label.law 0.15 (Label.forward_return cur fut) l).
Proof.
  assert (200 + 0 + 1 < length closes_boundary) as H1
    by (apply Nat.ltb_lt; vm_compute; reflexivity).
  assert (200 + 1 + 0 + 1 < length closes_boundary) as H2
    by (apply Nat.ltb_lt; vm_compute; reflexivity).
  assert (length boundary_features = length closes_boundary) as H3
    by (vm_compute; reflexivity).
  split.
  - split; [exact H1|]. exact (proj1 label_law_holds closes_boundary 1 0 H1).
  - split; [exact H3|]. split; [exact H2|].
    exact (proj2 label_law_holds boundary_features closes_boundary 1 1 0 H3 H2).
Defined.

(** The labels of [closes_boundary] one candle ahead: +2.0% exactly is HOLD,
    +0.49% is HOLD, -5.4% is SELL, +1.03% is HOLD. *)
Example create_labels_boundary :
  MultiTimeframe.create_labels closes_boundary 1
  = Some [Label.HOLD; Label.HOLD; Label.SELL; Label.HOLD].
Proof. vm_compute. reflexivity. Qed.

(** ** Windows *)

Lemma strategy_loop (pred : nat -> Z) (data : list Backtest.row) :
  exists pairs,
    mapM (fun i => a ← Backtest.actual_direction data i; Some (pred i, a))
         (Py.range 30 (length data - 1)) = Some pairs /\
    length pairs = length data - 1 - 30 /\
    forall k, k < length pairs ->
      exists next cur,
        data !! (30 + k + 1) = Some next /\
        data !! (30 + k) = Some cur /\
        pairs !! k = Some (pred (30 + k),
                           if F64.gt (Backtest.close next) (Backtest.close cur)
                           then 1%Z else (-1)%Z).
Proof.
  destruct (PyFacts.mapM_range
              (fun i => a ← Backtest.actual_direction data i; Some (pred i, a))
              30 (length data - 1)) as (pairs & Hp & Hlen & Hnth).
  { intros i Hi. unfold Backtest.actual_direction.
    destruct (lookup_lt_is_Some_2 data (i + 1)) as [x ->]; [lia|].
    destruct (lookup_lt_is_Some_2 data i) as [y ->]; [lia|]. simpl. eauto. }
  exists pairs. split; [done|]. split; [done|].
  intros k Hk.
  destruct (lookup_lt_is_Some_2 data (30 + k + 1)) as [next Hnext]; [lia|].
  destruct (lookup_lt_is_Some_2 data (30 + k)) as [cur Hcur]; [lia|].
  exists next, cur. split; [done|]. split; [done|].
  rewrite Hnth by lia. unfold Backtest.actual_direction.
  rewrite Hnext, Hcur. reflexivity.
Qed.

Lemma scale_length sc data : length (Backtest.scale sc data) = length data.
Proof. apply length_map. Qed.

Lemma ai_strategy_runs (art : Backtest.artifacts) (data : list Backtest.row)
    (sc : Backtest.scaler) (run : list Backtest.row -> option float) :
  Backtest.model_exists art = true ->
  Backtest.scaler_file art = Some sc ->
  Backtest.session art = Some run ->
  exists preds acts,
    Backtest.ai_strategy art data = Some (Some (preds, acts)) /\
    length preds = length data - 1 - 30 /\
    length acts = length preds /\
    forall k, k < length preds ->
      exists next cur,
        data !! (30 + k + 1) = Some next /\
        data !! (30 + k) = Some cur /\
        preds !! k = Some (Backtest.ai_predicted_direction run (Backtest.scale sc data) (30 + k)) /\
        acts !! k = Some (if F64.gt (Backtest.close next) (Backtest.close cur)
                          then 1%Z else (-1)%Z).
Proof.
  intros Hm Hs Hr. unfold Backtest.ai_strategy. rewrite Hm, Hs, Hr.
  cbn [negb]. rewrite scale_length. unfold Backtest.SEQ_LENGTH at 1.
  destruct (strategy_loop
              (Backtest.ai_predicted_direction run (Backtest.scale sc data)) data)
    as (pairs & -> & Hlen & Hnth).
  eexists _, _. split; [reflexivity|]. rewrite !length_map.
  split; [done|]. split; [done|].
  intros k Hk. destruct (Hnth k Hk) as (next & cur & ? & ? & Hk').
  exists next, cur. rewrite !list_lookup_fmap, Hk'. done.
Qed.

Lemma heuristic_strategy_runs (data : list Backtest.row) :
  exists preds acts,
    Backtest.heuristic_strategy data = Some (preds, acts) /\
    length preds = length data - 1 - 30 /\
    length acts = length preds /\
    forall k, k < length preds ->
      exists next cur,
        data !! (30 + k + 1) = Some next /\
        data !! (30 + k) = Some cur /\
        acts !! k = Some (if F64.gt (Backtest.close next) (Backtest.close cur)
                          then 1%Z else (-1)%Z).
Proof.
  unfold Backtest.heuristic_strategy.
  destruct (strategy_loop
     (fun i => if F64.gt (Np.mean (map Backtest.close (Py.slice (i - 5) i data)))
                         (Np.mean (map Backtest.close (Py.slice (i - 20) i data)))
               then 1%Z else (-1)%Z) data) as (pairs & Hp & Hlen & Hnth).
  cbv zeta. rewrite Hp.
  eexists _, _. split; [reflexivity|]. rewrite !length_map.
  split; [done|]. split; [done|].
  intros k Hk. destruct (Hnth k Hk) as (next & cur & ? & ? & Hk').
  exists next, cur. rewrite !list_lookup_fmap, Hk'. done.
Qed.

Lemma buyhold_strategy_runs (data : list Backtest.row) :
  exists preds acts,
    Backtest.buyhold_strategy data = Some (preds, acts) /\
    length preds = length data - 1 - 30 /\
    length acts = length preds /\
    forall k, k < length preds ->
      exists next cur,
        data !! (30 + k + 1) = Some next /\
        data !! (30 + k) = Some cur /\
        preds !! k = Some 1%Z /\
        acts !! k = Some (if F64.gt (Backtest.close next) (Backtest.close cur)
                          then 1%Z else (-1)%Z).
Proof.
  unfold Backtest.buyhold_strategy.
  destruct (strategy_loop (fun _ => 1%Z) data) as (pairs & -> & Hlen & Hnth).
  eexists _, _. split; [reflexivity|]. rewrite !length_map.
  split; [done|]. split; [done|].
  intros k Hk. destruct (Hnth k Hk) as (next & cur & ? & ? & Hk').
  exists next, cur. rewrite !list_lookup_fmap, Hk'. done.
Qed.

(** C3 -- [create_sequences] yields exactly
    [max(0, matrix_length - seq_length - horizon)] windows, where
    [matrix_length = len(features) - 200] is the part of the feature array
    past the warm-up; its anchors are consecutive (stride 1, no duplicates,
    increasing) and the [k]-th window is the slice of [seq_length] feature
    rows that ends at its anchor.  The loop of [ai_strategy] does the same
    on the scaled data with [seq_length = 30], [horizon = 1] and no
    warm-up: the window it hands to the session at anchor [i] is the slice
    of the 30 scaled rows before row [i], and the prediction of the anchor
    is read off the session's answer on that window. *)
Theorem window_builder_count :
  (forall (features : list (list float)) (closes : list float)
          (seq_length look_ahead : nat),
     length features = length closes ->
     let anchors := Py.range (200 + seq_length) (length closes - look_ahead) in
     exists seqs labels,
       LstmSignal.create_sequences features closes seq_length look_ahead
         = Some (seqs, labels) /\
       Z.of_nat (length seqs)
         = Z.max 0 (Z.of_nat (length features) - 200
                    - Z.of_nat seq_length - Z.of_nat look_ahead) /\
       length labels = length seqs /\
       length anchors = length seqs /\
       NoDup anchors /\
       (forall k i j, anchors !! k = Some i -> anchors !! S k = Some j -> j = S i) /\
       (forall k1 k2 i j, anchors !! k1 = Some i -> anchors !! k2 = Some j ->
          k1 < k2 -> i < j) /\
       (forall k i, anchors !! k = Some i ->
          i + look_ahead < length closes /\
          seqs !! k = Some (Py.slice (i - seq_length) i features) /\
          length (Py.slice (i - seq_length) i features) = seq_length)) /\
  (forall (art : Backtest.artifacts) (data : list Backtest.row)
          (sc : Backtest.scaler) (run : list Backtest.row -> option float),
     Backtest.model_exists art = true ->
     Backtest.scaler_file art = Some sc ->
     Backtest.session art = Some run ->
     let scaled_data := Backtest.scale sc data in
     let anchors := Py.range 30 (length scaled_data - 1) in
     exists preds acts,
       Backtest.ai_strategy art data = Some (Some (preds, acts)) /\
       Z.of_nat (length preds) = Z.max 0 (Z.of_nat (length scaled_data) - 30 - 1) /\
       length anchors = length preds /\
       NoDup anchors /\
       (forall k i j, anchors !! k = Some i -> anchors !! S k = Some j -> j = S i) /\
       (forall k1 k2 i j, anchors !! k1 = Some i -> anchors !! k2 = Some j ->
          k1 < k2 -> i < j) /\
       (forall k i, anchors !! k = Some i ->
          i + 1 < length scaled_data /\
          length (Py.slice (i - 30) i scaled_data) = 30 /\
          (forall j, j < 30 ->
             Py.slice (i - 30) i scaled_data !! j = scaled_data !! (i - 30 + j)) /\
          exists current,
            scaled_data !! i = Some current /\
            preds !! k
            = Some (match run (Py.slice (i - 30) i scaled_data) with
                    | Some predicted_value =>
                        if F64.gt predicted_value (Backtest.close current)
                        then 1%Z else (-1)%Z
                    | None => 0%Z
                    end))).
Proof.
  split.
  - intros features closes seq_length look_ahead Hfc anchors.
    destruct (create_sequences_at features closes seq_length look_ahead)
      as (seqs & labels & Hcs & Hlen & Hll & Hnth); [lia|].
    exists seqs, labels. split; [done|].
    split; [rewrite Hlen, Hfc; lia|]. split; [done|].
    split; [unfold anchors; rewrite PyFacts.range_length; lia|].
    split; [apply PyFacts.range_NoDup|].
    split; [intros k i j; apply PyFacts.range_stride|].
    split; [intros k1 k2 i j; apply PyFacts.range_increasing|].
    intros k i Hi. apply PyFacts.range_lookup_inv in Hi as [-> Hk].
    split; [lia|].
    destruct (Hnth k) as (cur & fut & _ & _ & Hw & _); [lia|].
    rewrite Hw. split.
    + f_equal. f_equal; lia.
    + rewrite PyFacts.slice_length; lia.
  - intros art data sc run Hm Hs Hr scaled_data anchors.
    destruct (ai_strategy_runs art data sc run Hm Hs Hr)
      as (preds & acts & Hai & Hlen & Hla & Hnth).
    assert (length scaled_data = length data) as Hsd by apply scale_length.
    exists preds, acts. split; [done|].
    split; [rewrite Hlen, Hsd; lia|].
    split; [unfold anchors; rewrite PyFacts.range_length; lia|].
    split; [apply PyFacts.range_NoDup|].
    split; [intros k i j; apply PyFacts.range_stride|].
    split; [intros k1 k2 i j; apply PyFacts.range_increasing|].
    intros k i Hi. apply PyFacts.range_lookup_inv in Hi as [-> Hk].
    split; [lia|].
    destruct (Hnth k) as (next & cur & _ & _ & Hp & _); [lia|].
    split; [rewrite PyFacts.slice_length; lia|].
    split.
    { intros j Hj. unfold Py.slice. rewrite lookup_take_lt by lia. apply lookup_drop. }
    destruct (lookup_lt_is_Some_2 scaled_data (30 + k)) as [current Hcur]; [lia|].
    exists current. split; [done|]. rewrite Hp.
    unfold Backtest.ai_predicted_direction, Backtest.SEQ_LENGTH.
    fold scaled_data. rewrite Hcur.
    destruct (run (Py.slice (30 + k - 30) (30 + k) scaled_data)); reflexivity.
Qed.

(** ** Realised direction *)

Lemma direction_law_holds (next cur : float) :
  direction_law next cur (if F64.gt next cur then 1%Z else (-1)%Z).
Proof.
  unfold direction_law.
  assert (PrimFloat.eqb next cur = true -> F64.gt next cur = false) as Htie.
  { intros Heq. apply F64Facts.eqb_not_ltb in Heq. unfold F64.gt. tauto. }
  destruct (F64.gt next cur) eqn:Hgt.
  - split; [tauto|]. split; [split; discriminate|]. split; [|discriminate].
    intros Heq. apply Htie in Heq. discriminate.
  - split; [split; discriminate|]. split; [tauto|]. split; [done|discriminate].
Qed.

(** C5 -- In every strategy the realised direction of step [i] is [+1] when
    [close[i+1] > close[i]] and [-1] otherwise; a tie gives [-1], and the
    direction is never [0]. *)
Theorem actual_direction_ties (data : list Backtest.row) (k : nat) :
  k < length data - 1 - 30 ->
  exists next cur d,
    data !! (30 + k + 1) = Some next /\
    data !! (30 + k) = Some cur /\
    direction_law (Backtest.close next) (Backtest.close cur) d /\
    Backtest.actual_direction data (30 + k) = Some d /\
    (exists preds acts,
       Backtest.buyhold_strategy data = Some (preds, acts) /\ acts !! k = Some d) /\
    (exists preds acts,
       Backtest.heuristic_strategy data = Some (preds, acts) /\ acts !! k = Some d) /\
    (forall art sc run,
       Backtest.model_exists art = true ->
       Backtest.scaler_file art = Some sc ->
       Backtest.session art = Some run ->
       exists preds acts,
         Backtest.ai_strategy art data = Some (Some (preds, acts)) /\
         acts !! k = Some d).
Proof.
  intros Hk.
  destruct (buyhold_strategy_runs data) as (bp & ba & Hb & Hbl & Hbal & Hbn).
  destruct (heuristic_strategy_runs data) as (hp & ha & Hh & Hhl & Hhal & Hhn).
  destruct (Hbn k) as (next & cur & Hnext & Hcur & _ & Hba); [lia|].
  destruct (Hhn k) as (next' & cur' & Hnext' & Hcur' & Hha); [lia|].
  assert (next' = next) as -> by congruence.
  assert (cur' = cur) as -> by congruence.
  exists next, cur,
    (if F64.gt (Backtest.close next) (Backtest.close cur) then 1%Z else (-1)%Z).
  split; [done|]. split; [done|]. split; [apply direction_law_holds|].
  split; [unfold Backtest.actual_direction; rewrite Hnext, Hcur; reflexivity|].
  split; [eauto|]. split; [eauto|].
  intros art sc run Hm Hs Hr.
  destruct (ai_strategy_runs art data sc run Hm Hs Hr)
    as (ap & aa & Hai & Hal & Haal & Han).
  destruct (Han k) as (next' & cur' & Hnext'' & Hcur'' & _ & Haa); [lia|].
  assert (next' = next) as -> by congruence.
  assert (cur' = cur) as -> by congruence.
  eauto.
Qed.

(** ** Metrics *)



Lemma foldl_add_ones (l : list (Z * Z)) (n : nat) :
  foldl Nat.add n
        (omap (fun pa => if (fst pa =? snd pa)%Z then Some 1 else None) l)
  = n + length (filter (fun pa => fst pa = snd pa) l).
Proof.
  revert n. induction l as [|pa l IH]; intros n; simpl; [lia|].
  rewrite filter_cons. destruct (Z.eqb_spec (fst pa) (snd pa)) as [E|E].
  - rewrite decide_True by done. simpl. rewrite IH. lia.
  - rewrite decide_False by done. apply IH.
Qed.

Lemma count_correct_filter (predictions actuals : list Z) :
  Backtest.count_correct predictions actuals =
  length (filter (fun pa => fst pa = snd pa) (zip predictions actuals)).
Proof. unfold Backtest.count_correct. now rewrite foldl_add_ones. Qed.



(** *** The sums a bounded run can reach *)

Module ReturnsFacts.

Import Returns.












End ReturnsFacts.

Lemma calculate_metrics_some (predictions actuals : list Z)
    (strategy_name asset : string) :
  predictions <> [] ->
  Backtest.calculate_metrics (Some predictions) (Some actuals) strategy_name asset
  = Some (Some (Backtest.Metrics asset strategy_name
       (Py.round2 (Np.of_nat (Backtest.count_correct predictions actuals)
                   / Np.of_nat (length predictions) * 100))
       (Py.round2 (Py.sum (Backtest.simulated_returns predictions actuals) * 100))
       (length predictions))).
Proof.
  intros Hne. unfold Backtest.calculate_metrics.
  destruct predictions as [|p ps]; [done|]. reflexivity.
Qed.




(** The evaluator on 469 pairs, the number a run on 500 candles scores:
    all matching gives 100 and +469, all mismatching gives 0 and -469. *)
Example calculate_metrics_all_match :
  Backtest.calculate_metrics (Some (replicate 469 1%Z)) (Some (replicate 469 1%Z))
                             "Buy & Hold" "BTC"
  = Some (Some (Backtest.Metrics "BTC" "Buy & Hold" 100 469 469)).
Proof. vm_compute. reflexivity. Qed.

Example calculate_metrics_all_mismatch :
  Backtest.calculate_metrics (Some (replicate 469 1%Z)) (Some (replicate 469 (-1)%Z))
                             "Buy & Hold" "BTC"
  = Some (Some (Backtest.Metrics "BTC" "Buy & Hold" 0 (-469) 469)).
Proof. vm_compute. reflexivity. Qed.

(** ** The backtest run *)

Lemma calculate_metrics_none (actuals : option (list Z)) (strategy_name asset : string) :
  Backtest.calculate_metrics None actuals strategy_name asset = Some None.
Proof. reflexivity. Qed.

Lemma calculate_metrics_empty (actuals : option (list Z)) (strategy_name asset : string) :
  Backtest.calculate_metrics (Some []) actuals strategy_name asset = Some None.
Proof. reflexivity. Qed.

(** With both lists present [calculate_metrics] returns, and it returns a
    record exactly when there is at least one prediction. *)
Lemma calculate_metrics_total (predictions actuals : list Z)
    (strategy_name asset : string) :
  exists r,
    Backtest.calculate_metrics (Some predictions) (Some actuals) strategy_name asset
      = Some r /\
    (predictions = [] -> r = None) /\
    (predictions <> [] ->
     exists m, r = Some m /\ Backtest.asset m = asset /\
               Backtest.strategy m = strategy_name /\
               Backtest.num_predictions m = length predictions).
Proof.
  destruct predictions as [|p ps].
  - exists None. split; [reflexivity|]. split; [done|]. intros []. reflexivity.
  - eexists. split; [apply calculate_metrics_some; discriminate|].
    split; [discriminate|]. intros _. eexists. split; [reflexivity|]. done.
Qed.

Lemma ai_strategy_missing (art : Backtest.artifacts) (data : list Backtest.row) :
  artifacts_present art = false -> Backtest.ai_strategy art data = Some None.
Proof.
  unfold artifacts_present, Backtest.ai_strategy.
  destruct (Backtest.model_exists art); [|done].
  destruct (Backtest.scaler_file art) as [sc|]; [|done].
  destruct (Backtest.session art) as [run|]; [|done].
  rewrite !bool_decide_eq_true_2 by eauto. done.
Qed.

Lemma ai_strategy_total (art : Backtest.artifacts) (data : list Backtest.row) :
  exists ai, Backtest.ai_strategy art data = Some ai /\
             (artifacts_present art = false -> ai = None) /\
             (forall preds acts, ai = Some (preds, acts) ->
                length preds = length data - 1 - 30).
Proof.
  destruct (artifacts_present art) eqn:Hp.
  - unfold artifacts_present in Hp.
    apply andb_true_iff in Hp as [[Hm Hs]%andb_true_iff Hr].
    apply bool_decide_eq_true in Hs as [sc Hs].
    apply bool_decide_eq_true in Hr as [run Hr].
    destruct (ai_strategy_runs art data sc run Hm Hs Hr)
      as (preds & acts & Hai & Hlen & _).
    exists (Some (preds, acts)). split; [done|]. split; [done|].
    intros ? ? [= <- <-]. done.
  - exists None. split; [now apply ai_strategy_missing|]. done.
Qed.

Lemma append_if_app (results : list Backtest.metrics) (m : option Backtest.metrics) :
  Backtest.append_if results m = results ++ option_list m.
Proof. destruct m; simpl; [done|]. now rewrite app_nil_r. Qed.

(** The body of the loop of [main] never raises; it appends at most one
    record per strategy, in the order AI Model, Heuristic, Buy & Hold. *)
Lemma run_asset_data (data : list Backtest.row) (art : Backtest.artifacts)
    (asset : string) (results : list Backtest.metrics) :
  exists ai ai_m heur heur_m bh bh_m,
    Backtest.ai_strategy art data = Some ai /\
    Backtest.calculate_metrics (fst <$> ai) (snd <$> ai) "AI Model" asset = Some ai_m /\
    Backtest.heuristic_strategy data = Some heur /\
    Backtest.calculate_metrics (Some (fst heur)) (Some (snd heur)) "Heuristic" asset
      = Some heur_m /\
    Backtest.buyhold_strategy data = Some bh /\
    Backtest.calculate_metrics (Some (fst bh)) (Some (snd bh)) "Buy & Hold" asset
      = Some bh_m /\
    Backtest.run_asset (Some data) art asset results
      = Some (results ++ option_list ai_m ++ option_list heur_m ++ option_list bh_m).
Proof.
  destruct (ai_strategy_total art data) as (ai & Hai & _).
  assert (exists ai_m, Backtest.calculate_metrics (fst <$> ai) (snd <$> ai)
                         "AI Model" asset = Some ai_m) as [ai_m Haim].
  { destruct ai as [[p a]|]; simpl; [|eauto].
    destruct (calculate_metrics_total p a "AI Model" asset) as (r & ? & _). eauto. }
  destruct (heuristic_strategy_runs data) as (hp & ha & Hh & _).
  destruct (calculate_metrics_total hp ha "Heuristic" asset) as (heur_m & Hhm & _).
  destruct (buyhold_strategy_runs data) as (bp & ba & Hb & _).
  destruct (calculate_metrics_total bp ba "Buy & Hold" asset) as (bh_m & Hbm & _).
  exists ai, ai_m, (hp, ha), heur_m, (bp, ba), bh_m.
  do 6 (split; [done|]).
  unfold Backtest.run_asset. rewrite Hai. cbn [mbind option_bind].
  rewrite Haim. cbn [mbind option_bind]. rewrite Hh. cbn [mbind option_bind fst snd].
  rewrite Hhm. cbn [mbind option_bind]. rewrite Hb. cbn [mbind option_bind fst snd].
  rewrite Hbm. cbn [mbind option_bind].
  rewrite !append_if_app, <- !app_assoc. done.
Qed.

Lemma run_asset_app (fetched : option (list Backtest.row)) (art : Backtest.artifacts)
    (asset : string) (results : list Backtest.metrics) :
  Backtest.run_asset fetched art asset results
  = Some (results ++ asset_records fetched art asset).
Proof.
  unfold asset_records. destruct fetched as [data|].
  - destruct (run_asset_data data art asset results)
      as (ai & ai_m & heur & heur_m & bh & bh_m & H1 & H2 & H3 & H4 & H5 & H6 & Hr).
    destruct (run_asset_data data art asset [])
      as (ai' & ai_m' & heur' & heur_m' & bh' & bh_m' & H1' & H2' & H3' & H4' & H5' & H6' & Hr').
    rewrite Hr, Hr'. simpl.
    assert (ai' = ai) as -> by congruence.
    assert (heur' = heur) as -> by congruence.
    assert (bh' = bh) as -> by congruence.
    congruence.
  - simpl. now rewrite app_nil_r.
Qed.

(** The loop of [main] over any list of assets. *)
Lemma asset_loop (fetch : string -> option (list Backtest.row))
    (disk : string -> Backtest.artifacts) (assets : list string)
    (init : list Backtest.metrics) :
  foldl (fun acc asset => results ← acc;
                          Backtest.run_asset (fetch asset) (disk asset) asset results)
        (Some init) assets
  = Some (init ++ concat (map (fun a => asset_records (fetch a) (disk a) a) assets)).
Proof.
  revert init. induction assets as [|a assets IH]; intros init; simpl.
  - now rewrite app_nil_r.
  - rewrite run_asset_app, IH, <- app_assoc. done.
Qed.

Lemma main_report (fetch : string -> option (list Backtest.row))
    (disk : string -> Backtest.artifacts) :
  Backtest.main fetch disk =
  match all_records fetch disk with
  | [] => None
  | rs => Some (Backtest.Report rs (Backtest.summary rs) (Backtest.verdict rs))
  end.
Proof.
  unfold Backtest.main. rewrite asset_loop. cbn [mbind option_bind app].
  fold (all_records fetch disk). destruct (all_records fetch disk); reflexivity.
Qed.

Lemma elem_of_all_records fetch disk (m : Backtest.metrics) :
  m ∈ all_records fetch disk <->
  exists a, a ∈ Backtest.ASSETS /\ m ∈ asset_records (fetch a) (disk a) a.
Proof.
  unfold all_records. induction Backtest.ASSETS as [|x l IH]; simpl.
  - split; [intros []%elem_of_nil | intros (a & []%elem_of_nil & _)].
  - rewrite elem_of_app, IH. split.
    + intros [H|(a & Ha & H)].
      * exists x. split; [left|done].
      * exists a. split; [now right|done].
    + intros (a & Ha & H). apply elem_of_cons in Ha as [->|Ha]; [now left|].
      right. eauto.
Qed.

Lemma elem_of_option_list {A} (x : A) (o : option A) :
  x ∈ option_list o <-> o = Some x.
Proof.
  destruct o as [y|]; simpl.
  - rewrite list_elem_of_singleton. split; congruence.
  - split; [intros []%elem_of_nil | discriminate].
Qed.

(** What one asset with fetched data contributes. *)
Lemma asset_records_data (data : list Backtest.row) (art : Backtest.artifacts)
    (a : string) :
  exists ai_m heur_m bh_m,
    asset_records (Some data) art a
      = option_list ai_m ++ option_list heur_m ++ option_list bh_m /\
    (forall m, ai_m = Some m ->
       Backtest.asset m = a /\ Backtest.strategy m = "AI Model"%string /\
       artifacts_present art = true /\
       Backtest.num_predictions m = length data - 1 - 30) /\
    (forall m, heur_m = Some m ->
       Backtest.asset m = a /\ Backtest.strategy m = "Heuristic"%string /\
       Backtest.num_predictions m = length data - 1 - 30) /\
    (forall m, bh_m = Some m ->
       Backtest.asset m = a /\ Backtest.strategy m = "Buy & Hold"%string /\
       Backtest.num_predictions m = length data - 1 - 30) /\
    (32 <= length data ->
       is_Some heur_m /\ is_Some bh_m /\
       (artifacts_present art = true -> is_Some ai_m)) /\
    (length data <= 31 -> ai_m = None /\ heur_m = None /\ bh_m = None).
Proof.
  destruct (run_asset_data data art a [])
    as (ai & ai_m & heur & heur_m & bh & bh_m & Hai & Haim & Hh & Hhm & Hb & Hbm & Hr).
  exists ai_m, heur_m, bh_m.
  split; [unfold asset_records; now rewrite Hr|].
  destruct (ai_strategy_total art data) as (ai' & Hai' & Hmiss & Hlen).
  assert (ai' = ai) as -> by congruence.
  destruct (heuristic_strategy_runs data) as (hp & ha & Hh' & Hhl & _).
  assert (heur = (hp, ha)) as -> by congruence.
  destruct (buyhold_strategy_runs data) as (bp & ba & Hb' & Hbl & _).
  assert (bh = (bp, ba)) as -> by congruence.
  cbn [fst snd] in Hhm, Hbm.
  destruct (calculate_metrics_total hp ha "Heuristic" a) as (rh & Erh & Hh0 & Hh1).
  destruct (calculate_metrics_total bp ba "Buy & Hold" a) as (rb & Erb & Hb0 & Hb1).
  assert (rh = heur_m) as -> by congruence.
  assert (rb = bh_m) as -> by congruence.
  assert (forall l : list Z, length l = 0 -> l = []) as Hnil
    by (intros []; [done|discriminate]).
  assert (forall l : list Z, 0 < length l -> l <> []) as Hcons
    by (intros [] ?; [simpl in *; lia|discriminate]).
  split; [|split; [|split; [|split]]].
  - intros m ->. destruct ai as [[p a']|]; cbn [fmap option_fmap option_map fst snd] in Haim; [|discriminate].
    destruct (calculate_metrics_total p a' "AI Model" a) as (r & Er & H0 & H1).
    assert (r = Some m) as -> by congruence.
    destruct p as [|z p]; [specialize (H0 eq_refl); discriminate|].
    destruct H1 as (m' & [= <-] & ? & ? & Hn); [discriminate|].
    split; [done|]. split; [done|].
    split; [destruct (artifacts_present art); [done|]; now specialize (Hmiss eq_refl)|].
    rewrite Hn. now apply (Hlen _ a').
  - intros m ->. destruct hp as [|z hp]; [specialize (Hh0 eq_refl); discriminate|].
    destruct Hh1 as (m' & [= <-] & ? & ? & Hn); [discriminate|].
    split; [done|]. split; [done|]. now rewrite Hn.
  - intros m ->. destruct bp as [|z bp]; [specialize (Hb0 eq_refl); discriminate|].
    destruct Hb1 as (m' & [= <-] & ? & ? & Hn); [discriminate|].
    split; [done|]. split; [done|]. now rewrite Hn.
  - intros Hlen32.
    destruct Hh1 as (mh & -> & _); [apply Hcons; lia|].
    destruct Hb1 as (mb & -> & _); [apply Hcons; lia|].
    split; [eauto|]. split; [eauto|].
    intros Hp. unfold artifacts_present in Hp.
    apply andb_true_iff in Hp as [[Hm Hs]%andb_true_iff Hrn].
    apply bool_decide_eq_true in Hs as [sc Hs].
    apply bool_decide_eq_true in Hrn as [run Hrn].
    destruct (ai_strategy_runs art data sc run Hm Hs Hrn)
      as (preds & acts & Hai'' & Hpl & _).
    assert (ai = Some (preds, acts)) as -> by congruence. cbn [fmap option_fmap option_map fst snd] in Haim.
    destruct (calculate_metrics_total preds acts "AI Model" a) as (r & Er & _ & H1).
    assert (r = ai_m) as -> by congruence.
    destruct H1 as (m & -> & _); [apply Hcons; lia|]. eauto.
  - intros Hlen31.
    rewrite (Hh0 (Hnil hp ltac:(lia))), (Hb0 (Hnil bp ltac:(lia))).
    split; [|done].
    destruct ai as [[p a']|]; cbn [fmap option_fmap option_map fst snd] in Haim;
      [|rewrite calculate_metrics_none in Haim; congruence].
    destruct (calculate_metrics_total p a' "AI Model" a) as (r & Er & H0 & _).
    rewrite <- (H0 (Hnil p ltac:(rewrite (Hlen p a' eq_refl); lia))). congruence.
Qed.

(** Every record carries the name of the asset whose iteration made it. *)
Lemma asset_records_asset fetched art a (m : Backtest.metrics) :
  m ∈ asset_records fetched art a -> Backtest.asset m = a.
Proof.
  destruct fetched as [data|]; [|intros []%elem_of_nil].
  destruct (asset_records_data data art a)
    as (ai_m & heur_m & bh_m & -> & Hai & Hh & Hb & _).
  rewrite !elem_of_app, !elem_of_option_list.
  intros [H|[H|H]]; [apply Hai in H|apply Hh in H|apply Hb in H]; tauto.
Qed.

(** C10 -- [calculate_metrics] returns [None], without dividing, when the
    predictions are [None] or empty; in [main] an asset whose model, scaler
    or session is missing gets no "AI Model" record, so it is absent from
    the results and from the AI aggregate, while its "Heuristic" and
    "Buy & Hold" records are still produced; an asset with too few candles
    for a single prediction gets no record at all. *)
Theorem missing_predictions_are_skipped :
  (forall actuals strategy_name asset,
     Backtest.calculate_metrics None actuals strategy_name asset = Some None) /\
  (forall actuals strategy_name asset,
     Backtest.calculate_metrics (Some []) actuals strategy_name asset = Some None) /\
  (forall fetch disk a data,
     a ∈ Backtest.ASSETS -> fetch a = Some data -> 32 <= length data ->
     artifacts_present (disk a) = false ->
     Backtest.ai_strategy (disk a) data = Some None /\
     exists rep,
       Backtest.main fetch disk = Some rep /\
       (forall m, m ∈ Backtest.results rep -> Backtest.asset m = a ->
                  Backtest.strategy m <> "AI Model"%string) /\
       (forall m, m ∈ Backtest.of_strategy "AI Model" (Backtest.results rep) ->
                  Backtest.asset m <> a) /\
       (exists m, m ∈ Backtest.results rep /\ Backtest.asset m = a /\
                  Backtest.strategy m = "Heuristic"%string /\
                  Backtest.num_predictions m = length data - 31) /\
       (exists m, m ∈ Backtest.results rep /\ Backtest.asset m = a /\
                  Backtest.strategy m = "Buy & Hold"%string /\
                  Backtest.num_predictions m = length data - 31)) /\
  (forall fetch disk a data rep,
     fetch a = Some data -> length data <= 31 ->
     Backtest.main fetch disk = Some rep ->
     forall m, m ∈ Backtest.results rep -> Backtest.asset m <> a).
Proof.
  split; [intros; apply calculate_metrics_none|].
  split; [intros; apply calculate_metrics_empty|].
  split.
  - intros fetch disk a data Ha Hf Hlen Hmiss.
    split; [now apply ai_strategy_missing|].
    destruct (asset_records_data data (disk a) a)
      as (ai_m & heur_m & bh_m & Hrecs & Hai & Hh & Hb & H32 & _).
    destruct (H32 Hlen) as ([mh Hmh] & [mb Hmb] & _).
    assert (mh ∈ all_records fetch disk) as Hmh_in.
    { apply elem_of_all_records. exists a. split; [done|]. rewrite Hf, Hrecs.
      rewrite !elem_of_app. right; left. now apply elem_of_option_list. }
    assert (mb ∈ all_records fetch disk) as Hmb_in.
    { apply elem_of_all_records. exists a. split; [done|]. rewrite Hf, Hrecs.
      rewrite !elem_of_app. right; right. now apply elem_of_option_list. }
    assert (forall m, m ∈ all_records fetch disk -> Backtest.asset m = a ->
                      Backtest.strategy m <> "AI Model"%string) as Hno.
    { intros m Hm Hma. apply elem_of_all_records in Hm as (x & Hx & Hm).
      pose proof (asset_records_asset _ _ _ _ Hm) as Hmx.
      assert (x = a) as -> by congruence.
      rewrite Hf, Hrecs in Hm. rewrite !elem_of_app, !elem_of_option_list in Hm.
      destruct Hm as [Hm|[Hm|Hm]].
      - apply Hai in Hm as (_ & _ & Hp & _). congruence.
      - apply Hh in Hm as (_ & -> & _). discriminate.
      - apply Hb in Hm as (_ & -> & _). discriminate. }
    rewrite main_report.
    destruct (all_records fetch disk) as [|r rs] eqn:Hall;
      [now apply elem_of_nil in Hmh_in|].
    eexists. split; [reflexivity|]. simpl.
    split; [exact Hno|].
    split.
    { intros m Hm Hma. unfold Backtest.of_strategy in Hm.
      apply list_elem_of_filter in Hm as [Hs Hm]. exact (Hno m Hm Hma Hs). }
    split.
    + exists mh. split; [done|]. destruct (Hh mh Hmh) as (? & ? & Hn).
      split; [done|]. split; [done|]. rewrite Hn. lia.
    + exists mb. split; [done|]. destruct (Hb mb Hmb) as (? & ? & Hn).
      split; [done|]. split; [done|]. rewrite Hn. lia.
  - intros fetch disk a data rep Hf Hlen Hmain m Hm Hma.
    rewrite main_report in Hmain.
    destruct (all_records fetch disk) as [|r rs] eqn:Hall; [discriminate|].
    injection Hmain as <-. simpl in Hm. rewrite <- Hall in Hm.
    apply elem_of_all_records in Hm as (x & Hx & Hm).
    pose proof (asset_records_asset _ _ _ _ Hm) as Hmx.
    assert (x = a) as -> by congruence.
    rewrite Hf in Hm.
    destruct (asset_records_data data (disk a) a)
      as (ai_m & heur_m & bh_m & Hrecs & _ & _ & _ & _ & H31).
    destruct (H31 Hlen) as (-> & -> & ->). rewrite Hrecs in Hm.
    now apply elem_of_nil in Hm.
Qed.

(** ** Aggregation across assets *)

Lemma filter_all {A} (P : A -> Prop) `{!forall x, Decision (P x)} (l : list A) :
  Forall P l -> filter P l = l.
Proof.
  induction 1 as [|x l Hx _ IH]; [done|].
  rewrite filter_cons, decide_True by done. now f_equal.
Qed.

Lemma pd_mean_no_nan (xs : list float) :
  Forall (fun x => PrimFloat.is_nan x = false) xs ->
  Pd.mean xs = (Np.sum xs / Np.of_nat (length xs))%float.
Proof. intros H. unfold Pd.mean. now rewrite filter_all. Qed.

Lemma summary_line_inv (rs : list Backtest.metrics) (line : Backtest.summary_line) :
  line ∈ Backtest.summary rs ->
  let per_asset := Backtest.of_strategy (Backtest.line_strategy line) rs in
  per_asset <> [] /\
  Backtest.avg_acc line = Pd.mean (map Backtest.accuracy per_asset) /\
  Backtest.avg_ret line = Pd.mean (map Backtest.total_return per_asset).
Proof.
  unfold Backtest.summary. intros Hin.
  apply list_elem_of_omap in Hin as (name & _ & Hline).
  destruct (0 <? length (Backtest.of_strategy name rs)) eqn:Hlen; [|discriminate].
  injection Hline as <-. simpl. split; [|done].
  apply Nat.ltb_lt in Hlen. intros E. rewrite E in Hlen. simpl in Hlen. lia.
Qed.

(** C6 -- Each line of the strategy summary is the mean of the per-asset
    [accuracy] values and the mean of the per-asset [total_return] values of
    that strategy's records (their sum over their number, no value being
    NaN), not a recomputation over the pooled samples; with one BTC
    prediction (correct) and three ETH predictions (all wrong) the
    Buy & Hold line reports 50, where the pooled accuracy is 25. *)
Theorem aggregate_is_mean_of_means :
  (forall fetch disk rep line,
     Backtest.main fetch disk = Some rep ->
     line ∈ Backtest.lines rep ->
     let per_asset :=
       Backtest.of_strategy (Backtest.line_strategy line) (Backtest.results rep) in
     per_asset <> [] /\
     (forall m, m ∈ per_asset <->
        m ∈ Backtest.results rep /\
        Backtest.strategy m = Backtest.line_strategy line) /\
     Backtest.avg_acc line = Pd.mean (map Backtest.accuracy per_asset) /\
     Backtest.avg_ret line = Pd.mean (map Backtest.total_return per_asset) /\
     (Forall (fun x => PrimFloat.is_nan x = false) (map Backtest.accuracy per_asset) ->
      Backtest.avg_acc line
      = (Np.sum (map Backtest.accuracy per_asset) / Np.of_nat (length per_asset))%float) /\
     (Forall (fun x => PrimFloat.is_nan x = false) (map Backtest.total_return per_asset) ->
      Backtest.avg_ret line
      = (Np.sum (map Backtest.total_return per_asset) / Np.of_nat (length per_asset))%float)) /\
  (exists rep line p1 a1 p2 a2 pooled,
     Backtest.main fetch_two empty_disk = Some rep /\
     line ∈ Backtest.lines rep /\
     Backtest.line_strategy line = "Buy & Hold"%string /\
     map Backtest.accuracy (Backtest.of_strategy "Buy & Hold" (Backtest.results rep))
       = [100; 0]%float /\
     map Backtest.num_predictions
         (Backtest.of_strategy "Buy & Hold" (Backtest.results rep)) = [1; 3] /\
     Backtest.avg_acc line = 50%float /\
     Backtest.avg_ret line = (-1)%float /\
     Backtest.buyhold_strategy btc_one_up = Some (p1, a1) /\
     Backtest.buyhold_strategy eth_three_down = Some (p2, a2) /\
     Backtest.calculate_metrics (Some (p1 ++ p2)) (Some (a1 ++ a2)) "Buy & Hold" "ALL"
       = Some (Some pooled) /\
     Backtest.accuracy pooled = 25%float /\
     Backtest.total_return pooled = (-2)%float).
Proof.
  split.
  - intros fetch disk rep line Hmain Hline per_asset.
    rewrite main_report in Hmain.
    destruct (all_records fetch disk) as [|r rs]; [discriminate|].
    injection Hmain as <-. simpl in Hline, per_asset.
    destruct (summary_line_inv _ _ Hline) as (Hne & Hacc & Hret).
    split; [exact Hne|]. split.
    { intros m. unfold per_asset, Backtest.of_strategy.
      rewrite list_elem_of_filter. tauto. }
    split; [exact Hacc|]. split; [exact Hret|]. split.
    + intros Hnan. rewrite Hacc, pd_mean_no_nan by done. now rewrite length_map.
    + intros Hnan. rewrite Hret, pd_mean_no_nan by done. now rewrite length_map.
  - eexists _, (Backtest.SummaryLine "Buy & Hold" 50 (-1)), _, _, _, _, _.
    split; [vm_compute; reflexivity|].
    split; [vm_compute; do 1 right; left|].
    split; [reflexivity|].
    split; [vm_compute; reflexivity|].
    split; [vm_compute; reflexivity|].
    split; [reflexivity|]. split; [reflexivity|].
    split; [vm_compute; reflexivity|].
    split; [vm_compute; reflexivity|].
    split; [vm_compute; reflexivity|].
    split; reflexivity.
Qed.

(** ** Indicators: [calculate_features] *)

Lemma ne0_false (x : float) : PrimFloat.eqb x 0 = true -> F64.ne0 x = false.
Proof. unfold F64.ne0. now intros ->. Qed.

Lemma slice_nonempty {A} (a b : nat) (xs : list A) :
  a < b -> a < length xs -> 0 < length (Py.slice a b xs).
Proof. intros. unfold Py.slice. rewrite length_take, length_drop. lia. Qed.

Ltac lookup_all :=
  repeat match goal with
  | |- context [?l !! ?j] =>
      let x := fresh "x" in
      let E := fresh "E" in
      destruct (lookup_lt_is_Some_2 l j) as [x E]; [lia|];
      rewrite E; cbn [mbind option_bind]
  end;
  repeat match goal with
  | |- context [F64.ne0 ?x] => destruct (F64.ne0 x); cbn [mbind option_bind]
  end.

Section MultiRows.

Variables highs lows closes volumes : list float.

Variable i : nat.

Hypothesis Hh : i < length highs.

Hypothesis Hl : i < length lows.

Hypothesis Hc : i < length closes.

Hypothesis Hv : i < length volumes.

(** No step of the loop of [calculate_features] raises. *)
Lemma multi_features_at_total :
  is_Some (MultiTimeframe.features_at highs lows closes volumes i).
Proof using Hh Hl Hc Hv.
  destruct (NpFacts.max_is_Some (Py.slice (i - 13) (i + 1) highs)) as [h14 Eh];
    [apply slice_nonempty; lia|].
  destruct (NpFacts.min_is_Some (Py.slice (i - 13) (i + 1) lows)) as [l14 El];
    [apply slice_nonempty; lia|].
  unfold MultiTimeframe.features_at, MultiTimeframe.macd, MultiTimeframe.bb_width,
    MultiTimeframe.bb_position, MultiTimeframe.momentum, MultiTimeframe.vol_ratio,
    MultiTimeframe.atr, MultiTimeframe.true_range, MultiTimeframe.stochastic,
    MultiTimeframe.obv_change.
  rewrite Eh, El. cbn [mbind option_bind].
  lookup_all; eauto.
Qed.

(** The row of candle [i], feature by feature. *)
Lemma multi_features_at_inv (r : list float) :
  MultiTimeframe.features_at highs lows closes volumes i = Some r ->
  exists macd bb_width bb_position momentum vol_ratio atr stochastic obv_change,
    MultiTimeframe.macd closes i = Some macd /\
    MultiTimeframe.bb_width closes i = Some bb_width /\
    MultiTimeframe.bb_position closes i = Some bb_position /\
    MultiTimeframe.momentum closes i = Some momentum /\
    MultiTimeframe.vol_ratio volumes i = Some vol_ratio /\
    MultiTimeframe.atr highs lows closes i = Some atr /\
    MultiTimeframe.stochastic highs lows closes i = Some stochastic /\
    MultiTimeframe.obv_change volumes i = Some obv_change /\
    r = [MultiTimeframe.rsi closes i; macd; bb_width; bb_position;
         MultiTimeframe.sma_20_50 closes i; MultiTimeframe.sma_50_200 closes i;
         momentum; vol_ratio; atr; (stochastic / 100)%float; obv_change].
Proof.
  unfold MultiTimeframe.features_at. intros H.
  destruct (MultiTimeframe.macd closes i) as [x1|]; [|discriminate].
  destruct (MultiTimeframe.bb_width closes i) as [x2|]; [|discriminate].
  destruct (MultiTimeframe.bb_position closes i) as [x3|]; [|discriminate].
  destruct (MultiTimeframe.momentum closes i) as [x4|]; [|discriminate].
  destruct (MultiTimeframe.vol_ratio volumes i) as [x5|]; [|discriminate].
  destruct (MultiTimeframe.atr highs lows closes i) as [x6|]; [|discriminate].
  destruct (MultiTimeframe.stochastic highs lows closes i) as [x7|]; [|discriminate].
  destruct (MultiTimeframe.obv_change volumes i) as [x8|]; [|discriminate].
  cbn [mbind option_bind] in H. injection H as <-.
  exists x1, x2, x3, x4, x5, x6, x7, x8. repeat split; reflexivity.
Qed.

End MultiRows.

Lemma multi_rsi_no_losses (closes : list float) (i : nat) :
  PrimFloat.eqb (MultiTimeframe.rsi_avg_loss closes i) 0 = true ->
  MultiTimeframe.rsi closes i = 0%float.
Proof.
  intros H. unfold MultiTimeframe.rsi.
  fold (MultiTimeframe.rsi_avg_loss closes i).
  change (Np.maximum (- ?d)) with (Np.maximum (PrimFloat.opp d)).
  unfold MultiTimeframe.rsi_avg_loss in *. cbv zeta in *.
  rewrite (ne0_false _ H). reflexivity.
Qed.

Lemma multi_guards_hold (highs lows closes volumes : list float) (i : nat)
    (r : list float) :
  MultiTimeframe.features_at highs lows closes volumes i = Some r ->
  multi_guards highs lows closes volumes i r.
Proof.
  intros Hr.
  destruct (multi_features_at_inv _ _ _ _ _ _ Hr)
    as (macd & bbw & bbp & mo & vr & atr & st & ob
        & Hmacd & Hbbw & Hbbp & Hmo & Hvr & Hatr & Hst & Hob & ->).
  unfold multi_guards. cbn [lookup list_lookup].
  split; [|split; [|split; [|split; [|split; [|split]]]]].
  - intros c Ec H0. apply ne0_false in H0.
    unfold MultiTimeframe.macd in Hmacd. unfold MultiTimeframe.bb_width in Hbbw.
    unfold MultiTimeframe.atr in Hatr.
    rewrite Ec in Hmacd, Hbbw, Hatr. cbn [mbind option_bind] in Hmacd, Hbbw.
    destruct (MultiTimeframe.true_range highs lows closes i) as [tr|]; [|discriminate].
    cbn [mbind option_bind] in Hatr. rewrite H0 in Hmacd, Hbbw, Hatr.
    repeat split; congruence.
  - intros H0. apply ne0_false in H0. unfold MultiTimeframe.bb_position in Hbbp.
    rewrite H0 in Hbbp. congruence.
  - intros c10 Ec H0. apply ne0_false in H0. unfold MultiTimeframe.momentum in Hmo.
    rewrite Ec in Hmo. cbn [mbind option_bind] in Hmo. rewrite H0 in Hmo. congruence.
  - intros H0. apply ne0_false in H0. unfold MultiTimeframe.vol_ratio in Hvr.
    rewrite H0 in Hvr. congruence.
  - intros h14 l14 Eh El H0. apply ne0_false in H0.
    unfold MultiTimeframe.stochastic in *. rewrite Eh, El in *.
    cbn [mbind option_bind] in *. rewrite H0 in *.
    injection Hst as <-. split; reflexivity.
  - intros v5 Ev H0. apply ne0_false in H0. unfold MultiTimeframe.obv_change in Hob.
    rewrite Ev in Hob. cbn [mbind option_bind] in Hob. rewrite H0 in Hob. congruence.
  - intros H0. now rewrite multi_rsi_no_losses.
Qed.

(** [calculate_features] never raises on a non-empty array; it returns one
    row of eleven features per candle past the warm-up. *)
Lemma calculate_features_rows (ohlcv : list MultiTimeframe.candle) :
  ohlcv <> [] ->
  exists rows,
    MultiTimeframe.calculate_features ohlcv = Some rows /\
    length rows = length ohlcv - 200 /\
    forall k, k < length rows ->
      exists r, rows !! k = Some r /\ length r = 11 /\
        MultiTimeframe.features_at
          (map MultiTimeframe.high ohlcv) (map MultiTimeframe.low ohlcv)
          (map MultiTimeframe.close ohlcv) (map MultiTimeframe.volume ohlcv)
          (200 + k) = Some r.
Proof.
  intros Hne.
  destruct (PyFacts.mapM_range
    (MultiTimeframe.features_at
       (map MultiTimeframe.high ohlcv) (map MultiTimeframe.low ohlcv)
       (map MultiTimeframe.close ohlcv) (map MultiTimeframe.volume ohlcv))
    200 (length (map MultiTimeframe.close ohlcv))) as (rows & Hrows & Hlen & Hnth).
  { intros i Hi. rewrite length_map in Hi.
    apply multi_features_at_total; rewrite length_map; lia. }
  rewrite length_map in Hlen, Hnth.
  exists rows. split.
  { destruct ohlcv; [done|]. exact Hrows. }
  split; [done|]. intros k Hk.
  destruct (lookup_lt_is_Some_2 rows k Hk) as [r Er].
  exists r. split; [done|]. rewrite <- Hnth by lia.
  split; [|done]. rewrite Hnth in Er by lia.
  destruct (multi_features_at_inv _ _ _ _ _ _ Er)
    as (? & ? & ? & ? & ? & ? & ? & ? & _ & _ & _ & _ & _ & _ & _ & _ & ->).
  reflexivity.
Qed.

(** ** Indicators: [calculate_technical_indicators] *)

Section LstmRows.

Variables highs lows closes volumes : list float.

Variable i : nat.

Hypothesis Hh : i < length highs.

Hypothesis Hl : i < length lows.

Hypothesis Hc : i < length closes.

Hypothesis Hv : i < length volumes.

Lemma lstm_rsi_gains_total : is_Some (LstmSignal.rsi_gains closes i).
Proof using Hh Hl Hc Hv.
  unfold LstmSignal.rsi_gains.
  destruct (PyFacts.mapM_range
    (fun j => cj ← closes !! j; cj1 ← closes !! (j - 1);
              Some (Np.pymax2 (cj - cj1) 0)) (i - 14) i) as (terms & -> & _).
  { intros j Hj. lookup_all; eauto. }
  cbn [mbind option_bind]. eauto.
Qed.

Lemma lstm_rsi_losses_total : is_Some (LstmSignal.rsi_losses closes i).
Proof using Hh Hl Hc Hv.
  unfold LstmSignal.rsi_losses.
  destruct (PyFacts.mapM_range
    (fun j => cj1 ← closes !! (j - 1); cj ← closes !! j;
              Some (Np.pymax2 (cj1 - cj) 0)) (i - 14) i) as (terms & -> & _).
  { intros j Hj. lookup_all; eauto. }
  cbn [mbind option_bind]. eauto.
Qed.

Lemma lstm_true_range_total (j : nat) :
  j <= i -> is_Some (LstmSignal.true_range highs lows closes j).
Proof using Hh Hl Hc Hv.
  intros Hj. unfold LstmSignal.true_range. lookup_all; eauto.
Qed.

Lemma lstm_mean_true_range_total :
  is_Some (LstmSignal.mean_true_range highs lows closes i).
Proof using Hh Hl Hc Hv.
  unfold LstmSignal.mean_true_range.
  destruct (PyFacts.mapM_range (LstmSignal.true_range highs lows closes) (i - 14) i)
    as (trs & -> & _).
  { intros j Hj. apply lstm_true_range_total. lia. }
  cbn [mbind option_bind]. eauto.
Qed.

Lemma lstm_feature_rsi_total : is_Some (LstmSignal.feature_rsi closes i).
Proof using Hh Hl Hc Hv.
  unfold LstmSignal.feature_rsi. destruct (14 <=? i); [|eauto].
  destruct lstm_rsi_gains_total as [g ->]. destruct lstm_rsi_losses_total as [l ->].
  cbn [mbind option_bind]. destruct (PrimFloat.eqb l 0); eauto.
Qed.

Lemma lstm_feature_bb_position_total : is_Some (LstmSignal.feature_bb_position closes i).
Proof using Hh Hl Hc Hv.
  unfold LstmSignal.feature_bb_position. destruct (20 <=? i); [|eauto].
  lookup_all; eauto.
Qed.

Lemma lstm_feature_momentum_total : is_Some (LstmSignal.feature_momentum closes i).
Proof using Hh Hl Hc Hv.
  unfold LstmSignal.feature_momentum. destruct (5 <=? i); [|eauto].
  lookup_all; eauto.
Qed.

Lemma lstm_feature_vol_ratio_total : is_Some (LstmSignal.feature_vol_ratio volumes i).
Proof using Hh Hl Hc Hv.
  unfold LstmSignal.feature_vol_ratio. destruct (20 <=? i); [|eauto].
  lookup_all; eauto.
Qed.

Lemma lstm_feature_atr_total : is_Some (LstmSignal.feature_atr highs lows closes i).
Proof using Hh Hl Hc Hv.
  unfold LstmSignal.feature_atr. destruct (14 <=? i); [|eauto].
  destruct (lstm_true_range_total i) as [tr ->]; [lia|].
  destruct lstm_mean_true_range_total as [atr ->].
  cbn [mbind option_bind]. lookup_all; eauto.
Qed.

Lemma lstm_feature_stochastic_total :
  is_Some (LstmSignal.feature_stochastic highs lows closes i).
Proof using Hh Hl Hc Hv.
  unfold LstmSignal.feature_stochastic.
  destruct (Nat.leb_spec 14 i) as [Hi|Hi]; [|eauto].
  destruct (NpFacts.min_is_Some (Py.slice (i - 14) i lows)) as [lo ->];
    [apply slice_nonempty; lia|].
  destruct (NpFacts.max_is_Some (Py.slice (i - 14) i highs)) as [hi ->];
    [apply slice_nonempty; lia|].
  cbn [mbind option_bind]. lookup_all; eauto.
Qed.

(** No step of the loop of [calculate_technical_indicators] raises. *)
Lemma lstm_row_at_total : is_Some (LstmSignal.row_at highs lows closes volumes i).
Proof using Hh Hl Hc Hv.
  unfold LstmSignal.row_at.
  destruct lstm_feature_rsi_total as [f0 ->].
  destruct lstm_feature_bb_position_total as [f3 ->].
  destruct lstm_feature_momentum_total as [f6 ->].
  destruct lstm_feature_vol_ratio_total as [f7 ->].
  destruct lstm_feature_atr_total as [f8 ->].
  destruct lstm_feature_stochastic_total as [f9 ->].
  cbn [mbind option_bind]. eauto.
Qed.

End LstmRows.

Lemma lstm_row_at_inv (highs lows closes volumes : list float) (i : nat)
    (r : list float) :
  LstmSignal.row_at highs lows closes volumes i = Some r ->
  exists f0 f3 f6 f7 f8 f9,
    LstmSignal.feature_rsi closes i = Some f0 /\
    LstmSignal.feature_bb_position closes i = Some f3 /\
    LstmSignal.feature_momentum closes i = Some f6 /\
    LstmSignal.feature_vol_ratio volumes i = Some f7 /\
    LstmSignal.feature_atr highs lows closes i = Some f8 /\
    LstmSignal.feature_stochastic highs lows closes i = Some f9 /\
    r = [f0; LstmSignal.feature_macd closes i; LstmSignal.feature_bb_width closes i; f3;
         LstmSignal.feature_sma_20_50 closes i; LstmSignal.feature_sma_50_200 closes i;
         f6; f7; f8; f9; 0%float].
Proof.
  unfold LstmSignal.row_at. intros H.
  destruct (LstmSignal.feature_rsi closes i) as [f0|]; [|discriminate].
  destruct (LstmSignal.feature_bb_position closes i) as [f3|]; [|discriminate].
  destruct (LstmSignal.feature_momentum closes i) as [f6|]; [|discriminate].
  destruct (LstmSignal.feature_vol_ratio volumes i) as [f7|]; [|discriminate].
  destruct (LstmSignal.feature_atr highs lows closes i) as [f8|]; [|discriminate].
  destruct (LstmSignal.feature_stochastic highs lows closes i) as [f9|]; [|discriminate].
  cbn [mbind option_bind] in H. injection H as <-.
  exists f0, f3, f6, f7, f8, f9. repeat split; reflexivity.
Qed.

Lemma lstm_guards_hold (highs lows closes volumes : list float) (i : nat)
    (r : list float) :
  200 <= i ->
  LstmSignal.row_at highs lows closes volumes i = Some r ->
  lstm_guards highs lows closes volumes i r.
Proof.
  intros Hi Hr.
  destruct (lstm_row_at_inv _ _ _ _ _ _ Hr)
    as (f0 & f3 & f6 & f7 & f8 & f9 & H0 & H3 & H6 & H7 & H8 & H9 & ->).
  assert ((14 <=? i) = true) as E14 by (apply Nat.leb_le; lia).
  assert ((20 <=? i) = true) as E20 by (apply Nat.leb_le; lia).
  assert ((5 <=? i) = true) as E5 by (apply Nat.leb_le; lia).
  unfold lstm_guards. cbn [lookup list_lookup].
  split; [|split; [|split; [|split; [|split; [|split; [|split; [|split; [|split]]]]]]]].
  - intros losses El Hz. unfold LstmSignal.feature_rsi in H0.
    rewrite E14, El in H0.
    destruct (LstmSignal.rsi_gains closes i) as [g|]; [|discriminate].
    cbn [mbind option_bind] in H0. rewrite Hz in H0. congruence.
  - intros Hz. apply ne0_false in Hz. unfold LstmSignal.feature_bb_width.
    rewrite E20. cbv zeta. now rewrite Hz.
  - intros Hz. apply ne0_false in Hz. unfold LstmSignal.feature_bb_position in H3.
    rewrite E20, Hz in H3. congruence.
  - intros Hz. apply ne0_false in Hz. unfold LstmSignal.feature_sma_20_50.
    cbv zeta. now rewrite Hz.
  - intros Hz. apply ne0_false in Hz. unfold LstmSignal.feature_sma_50_200.
    cbv zeta. now rewrite Hz.
  - intros c5 Ec Hz. apply ne0_false in Hz. unfold LstmSignal.feature_momentum in H6.
    rewrite E5, Ec in H6. cbn [mbind option_bind] in H6. rewrite Hz in H6. congruence.
  - intros Hz. apply ne0_false in Hz. unfold LstmSignal.feature_vol_ratio in H7.
    rewrite E20 in H7. cbv zeta in H7. rewrite Hz in H7. congruence.
  - intros c Ec Hz. apply ne0_false in Hz. unfold LstmSignal.feature_atr in H8.
    rewrite E14 in H8.
    destruct (LstmSignal.true_range highs lows closes i) as [tr|]; [|discriminate].
    destruct (LstmSignal.mean_true_range highs lows closes i) as [atr|]; [|discriminate].
    cbn [mbind option_bind] in H8. rewrite Ec in H8.
    cbn [mbind option_bind] in H8. rewrite Hz in H8. congruence.
  - intros lowest highest Elo Ehi Hz. apply ne0_false in Hz.
    unfold LstmSignal.feature_stochastic in H9. rewrite E14, Elo, Ehi in H9.
    cbn [mbind option_bind] in H9. rewrite Hz in H9. congruence.
  - reflexivity.
Qed.

(** [calculate_technical_indicators] never raises on arrays of one length;
    it returns one row per candle, zero up to the warm-up and computed by
    [row_at] from index 200 on. *)
Lemma calculate_technical_indicators_rows (highs lows closes volumes : list float) :
  length highs = length closes ->
  length lows = length closes ->
  length volumes = length closes ->
  exists features,
    LstmSignal.calculate_technical_indicators highs lows closes volumes = Some features /\
    length features = length closes /\
    (forall i, i < 200 -> i < length closes ->
       features !! i = Some (replicate 11 0%float)) /\
    (forall i, 200 <= i < length closes ->
       exists r, features !! i = Some r /\ length r = 11 /\
                 LstmSignal.row_at highs lows closes volumes i = Some r).
Proof.
  intros Hh Hl Hv. unfold LstmSignal.calculate_technical_indicators. cbv zeta.
  destruct (PyFacts.fill_range (LstmSignal.row_at highs lows closes volumes)
              (replicate (length closes) (replicate 11 0%float)) 200 (length closes))
    as (features & Hf & Hlen & Hin & Hout).
  { now rewrite length_replicate. }
  { intros i Hi. apply lstm_row_at_total; lia. }
  rewrite length_replicate in Hlen.
  exists features. split; [done|]. split; [done|]. split.
  - intros i Hi Hn. rewrite Hout by lia. now apply lookup_replicate_2.
  - intros i Hi. destruct (lstm_row_at_total highs lows closes volumes i)
      as [r Er]; try lia.
    exists r. rewrite Hin by done. split; [done|]. split; [|done].
    destruct (lstm_row_at_inv _ _ _ _ _ _ Er)
      as (? & ? & ? & ? & ? & ? & _ & _ & _ & _ & _ & _ & ->).
    reflexivity.
Qed.

(** C7 (as amended) -- On every series longer than the warm-up neither
    indicator function raises, each returns rows of eleven features, and
    every guarded ratio whose denominator is exactly zero takes its neutral
    value: 0.5 for the Bollinger position, 50 for the stochastic (stored as
    0.5 by [calculate_features]), 1.0 for the volume ratio, 0 for the
    momentum, the MACD proxy and the ATR. *)
Theorem guards_resolve_to_neutral :
  (forall ohlcv : list MultiTimeframe.candle,
     201 <= length ohlcv ->
     exists rows,
       MultiTimeframe.calculate_features ohlcv = Some rows /\
       length rows = length ohlcv - 200 /\
       forall k r, rows !! k = Some r ->
         length r = 11 /\
         multi_guards (map MultiTimeframe.high ohlcv) (map MultiTimeframe.low ohlcv)
                      (map MultiTimeframe.close ohlcv) (map MultiTimeframe.volume ohlcv)
                      (200 + k) r) /\
  (forall highs lows closes volumes : list float,
     201 <= length closes ->
     length highs = length closes ->
     length lows = length closes ->
     length volumes = length closes ->
     exists features,
       LstmSignal.calculate_technical_indicators highs lows closes volumes
         = Some features /\
       length features = length closes /\
       forall i r, 200 <= i -> features !! i = Some r ->
         length r = 11 /\ lstm_guards highs lows closes volumes i r).
Proof.
  split.
  - intros ohlcv Hlen.
    destruct (calculate_features_rows ohlcv) as (rows & Hrows & Hl & Hnth).
    { intros ->. simpl in Hlen. lia. }
    exists rows. split; [done|]. split; [done|].
    intros k r Hk.
    destruct (Hnth k) as (r' & Hr' & Hlen' & Hat);
      [apply lookup_lt_is_Some_1; eauto|].
    assert (r' = r) as -> by congruence.
    split; [done|]. now apply multi_guards_hold.
  - intros highs lows closes volumes Hlen Hh Hl Hv.
    destruct (calculate_technical_indicators_rows highs lows closes volumes Hh Hl Hv)
      as (features & Hf & Hfl & _ & Hrows).
    exists features. split; [done|]. split; [done|].
    intros i r Hi Hr.
    assert (i < length closes) as Hi'
      by (rewrite <- Hfl; apply lookup_lt_is_Some_1; eauto).
    destruct (Hrows i) as (r' & Hr' & Hlen' & Hat); [lia|].
    assert (r' = r) as -> by congruence.
    split; [done|]. now apply lstm_guards_hold.
Qed.

Lemma guards_resolve_to_neutral_witness :
  201 <= length flat_candles /\
  MultiTimeframe.calculate_features flat_candles
    = Some [[0; 0; 0; 0.5; 0; 0; 0; 1; 0; 0.5; 0]%float] /\
  201 <= length flat_prices /\
  (LstmSignal.calculate_technical_indicators
     flat_prices flat_prices flat_prices flat_volumes ≫= (.!! 200))
    = Some [100; 0; 0; 0.5; 0; 0; 0; 1; 0; 50; 0]%float /\
  (exists rows,
     MultiTimeframe.calculate_features flat_candles = Some rows /\
     length rows = length flat_candles - 200 /\
     forall k r, rows !! k = Some r ->
       length r = 11 /\
       multi_guards (map MultiTimeframe.high flat_candles)
                    (map MultiTimeframe.low flat_candles)
                    (map MultiTimeframe.close flat_candles)
                    (map MultiTimeframe.volume flat_candles) (200 + k) r) /\
  (exists features,
     LstmSignal.calculate_technical_indicators
       flat_prices flat_prices flat_prices flat_volumes = Some features /\
     length features = length flat_prices /\
     forall i r, 200 <= i -> features !! i = Some r ->
       length r = 11 /\ lstm_guards flat_prices flat_prices flat_prices flat_volumes i r).
Proof.
  assert (201 <= length flat_candles) as H1 by (vm_compute; lia).
  assert (201 <= length flat_prices) as H2 by (vm_compute; lia).
  split; [exact H1|]. split; [vm_compute; reflexivity|].
  split; [exact H2|]. split; [vm_compute; reflexivity|].
  split.
  - exact (proj1 guards_resolve_to_neutral flat_candles H1).
  - exact (proj2 guards_resolve_to_neutral flat_prices flat_prices flat_prices
             flat_volumes H2 eq_refl eq_refl eq_refl).
Defined.

(** C7 (as stated) fails: on 201 finite candles the momentum of the single
    row divides by a non-zero price so small that the quotient overflows,
    and the feature matrix holds an infinity. *)
Lemma feature_matrix_holds_infinity :
  length tiny_close_candles = 201 /\
  forallb finite_candle tiny_close_candles = true /\
  exists row,
    MultiTimeframe.calculate_features tiny_close_candles = Some [row] /\
    row !! 6 = Some infinity /\
    PrimFloat.is_infinity infinity = true.
Proof.
  split; [vm_compute; reflexivity|]. split; [vm_compute; reflexivity|].
  eexists. split; [vm_compute; reflexivity|]. split; reflexivity.
Qed.

(** ** RSI and ATR in [calculate_features] *)

(** C4 -- on the rising market no loss is observed in the RSI window
    ([avg_loss] is exactly 0), yet [calculate_features] stores an RSI of 0:
    its guard sets [rs = 0], and [100 - 100 / (1 + 0)] is 0.  On the same
    prices [calculate_technical_indicators] stores 100. *)
Theorem rsi_without_losses_is_zero :
  exists row lstm_row,
    MultiTimeframe.rsi_avg_loss (map MultiTimeframe.close rising_candles) 200 = 0%float /\
    MultiTimeframe.calculate_features rising_candles = Some [row] /\
    row !! 0 = Some 0%float /\
    LstmSignal.rsi_losses rising_prices 200 = Some 0%float /\
    (LstmSignal.calculate_technical_indicators
       rising_prices rising_prices rising_prices rising_prices ≫= (.!! 200))
      = Some lstm_row /\
    lstm_row !! 0 = Some 100%float.
Proof.
  eexists _, _.
  split; [vm_compute; reflexivity|]. split; [vm_compute; reflexivity|].
  split; [reflexivity|]. split; [vm_compute; reflexivity|].
  split; [vm_compute; reflexivity|]. reflexivity.
Qed.

(** C8 -- with one wide candle inside the trailing window, the mean true
    range over the window is [2 / 14], so the ATR is [2 / 14 / 100], which
    is what [calculate_technical_indicators] stores; [calculate_features]
    stores the true range of candle 200 alone over its close, which is 0. *)
Theorem atr_is_single_true_range :
  let highs := map MultiTimeframe.high spike_candles in
  let lows := map MultiTimeframe.low spike_candles in
  let closes := map MultiTimeframe.close spike_candles in
  exists row,
    MultiTimeframe.calculate_features spike_candles = Some [row] /\
    row !! 8 = Some 0%float /\
    MultiTimeframe.true_range highs lows closes 200 = Some 0%float /\
    atr_mean_of_window highs lows closes 200 = Some (2 / 14 / 100)%float /\
    LstmSignal.feature_atr highs lows closes 200 = Some (2 / 14 / 100)%float /\
    PrimFloat.eqb 0 (2 / 14 / 100) = false.
Proof.
  eexists.
  split; [vm_compute; reflexivity|]. split; [reflexivity|].
  split; [vm_compute; reflexivity|]. split; [vm_compute; reflexivity|].
  split; vm_compute; reflexivity.
Qed.

(** In [calculate_features] the ATR of any candle is the true range of
    that candle alone, over its close. *)
Lemma multi_atr_single (highs lows closes : list float) (i : nat) (tr c : float) :
  MultiTimeframe.true_range highs lows closes i = Some tr ->
  closes !! i = Some c ->
  MultiTimeframe.atr highs lows closes i
  = Some (if F64.ne0 c then (tr / c)%float else 0%float).
Proof. intros Htr Hc. unfold MultiTimeframe.atr. now rewrite Htr, Hc. Qed.

(** ** Short series *)

Lemma range_empty (a b : nat) : b <= a -> Py.range a b = [].
Proof. intros. unfold Py.range. now replace (b - a) with 0 by lia. Qed.

(** C9 (as amended) -- a series no longer than the warm-up, or too short
    for one window, is not reported as an error: [calculate_features]
    returns an empty matrix on a non-empty array of at most 200 candles,
    [calculate_technical_indicators] returns the all-zero matrix, and
    [create_sequences] returns empty sequences and labels. *)
Theorem short_series_yield_empty :
  (forall ohlcv : list MultiTimeframe.candle,
     ohlcv <> [] -> length ohlcv <= 200 ->
     MultiTimeframe.calculate_features ohlcv = Some []) /\
  (forall highs lows closes volumes : list float,
     length closes <= 200 ->
     LstmSignal.calculate_technical_indicators highs lows closes volumes
     = Some (replicate (length closes) (replicate 11 0%float))) /\
  (forall (features : list (list float)) (closes : list float)
          (seq_length look_ahead : nat),
     length closes <= 200 + seq_length + look_ahead ->
     LstmSignal.create_sequences features closes seq_length look_ahead
     = Some ([], [])) /\
  (forall (closes : list float) (lookahead_candles : nat),
     length closes <= 200 + lookahead_candles ->
     MultiTimeframe.create_labels closes lookahead_candles = Some []).
Proof.
  split; [|split; [|split]].
  - intros ohlcv Hne Hlen. destruct ohlcv as [|c l]; [done|].
    unfold MultiTimeframe.calculate_features, MultiTimeframe.feature_rows.
    cbv zeta. rewrite range_empty; [reflexivity|]. now rewrite length_map.
  - intros highs lows closes volumes Hlen.
    unfold LstmSignal.calculate_technical_indicators. cbv zeta.
    rewrite range_empty by done. reflexivity.
  - intros features closes seq_length look_ahead Hlen.
    unfold LstmSignal.create_sequences. cbv zeta.
    rewrite range_empty by lia. reflexivity.
  - intros closes lookahead_candles Hlen.
    unfold MultiTimeframe.create_labels. rewrite range_empty by lia. reflexivity.
Qed.

Lemma short_series_yield_empty_witness :
  (one_candle <> [] /\ length one_candle <= 200 /\
   MultiTimeframe.calculate_features one_candle = Some []) /\
  (length [100%float] <= 200 /\
   LstmSignal.calculate_technical_indicators [101%float] [99%float] [100%float] [5%float]
   = Some [replicate 11 0%float]) /\
  (length flat_prices <= 200 + 60 + 6 /\
   LstmSignal.create_sequences [] flat_prices 60 6 = Some ([], [])) /\
  (length flat_prices <= 200 + 1 /\
   MultiTimeframe.create_labels flat_prices 1 = Some []).
Proof.
  destruct short_series_yield_empty as (H1 & H2 & H3 & H4).
  assert (length flat_prices = 201) as E by (vm_compute; reflexivity).
  split; [|split; [|split]].
  - assert (one_candle <> []) as Hne by discriminate.
    assert (length one_candle <= 200) as Hlen by (simpl; lia).
    split; [exact Hne|]. split; [exact Hlen|]. exact (H1 one_candle Hne Hlen).
  - assert (length [100%float] <= 200) as Hlen by (simpl; lia).
    split; [exact Hlen|]. exact (H2 [101%float] [99%float] [100%float] [5%float] Hlen).
  - assert (length flat_prices <= 200 + 60 + 6) as Hlen by (rewrite E; lia).
    split; [exact Hlen|]. exact (H3 [] flat_prices 60 6 Hlen).
  - assert (length flat_prices <= 200 + 1) as Hlen by (rewrite E; lia).
    split; [exact Hlen|]. exact (H4 flat_prices 1 Hlen).
Defined.

(** C9 (as stated) fails: a series of one candle, shorter than the warm-up,
    makes [calculate_features] return an empty feature matrix, and a series
    too short for one window makes [create_sequences] return empty arrays,
    neither being an error. *)
Lemma short_series_is_not_an_error :
  MultiTimeframe.calculate_features one_candle = Some [] /\
  LstmSignal.create_sequences [] flat_prices 60 6 = Some ([], []) /\
  MultiTimeframe.calculate_features one_candle <> None /\
  LstmSignal.create_sequences [] flat_prices 60 6 <> None.
Proof.
  assert (MultiTimeframe.calculate_features one_candle = Some []) as H1
    by (vm_compute; reflexivity).
  assert (LstmSignal.create_sequences [] flat_prices 60 6 = Some ([], [])) as H2
    by (vm_compute; reflexivity).
  split; [exact H1|]. split; [exact H2|].
  rewrite H1, H2. split; discriminate.
Qed.

(** ** The statements above at concrete inputs *)

Lemma window_builder_count_witness :
  (length zero_features = length prices_263 /\
   exists seqs labels,
     LstmSignal.create_sequences zero_features prices_263 60 2 = Some (seqs, labels) /\
     length seqs = 1 /\
     seqs !! 0 = Some (Py.slice 200 260 zero_features)) /\
  (Backtest.model_exists constant_session = true /\
   exists preds acts,
     Backtest.ai_strategy constant_session eth_three_down = Some (Some (preds, acts)) /\
     length preds = 3).
Proof.
  split.
  - assert (length zero_features = length prices_263) as H by (vm_compute; reflexivity).
    split; [exact H|].
    destruct (proj1 window_builder_count zero_features prices_263 60 2 H)
      as (seqs & labels & Hcs & Hn & _ & _ & _ & _ & _ & Hw).
    exists seqs, labels. split; [exact Hcs|].
    assert (length seqs = 1) as Hlen.
    { apply Nat2Z.inj. rewrite Hn. vm_compute. reflexivity. }
    split; [exact Hlen|].
    destruct (Hw 0 260) as (_ & Hs & _); [vm_compute; reflexivity|].
    exact Hs.
  - split; [reflexivity|].
    destruct (proj2 window_builder_count constant_session eth_three_down
                (Backtest.Scaler 100 5 1 1) (fun _ => Some 0%float)
                eq_refl eq_refl eq_refl)
      as (preds & acts & Hai & Hn & _).
    exists preds, acts. split; [exact Hai|].
    apply Nat2Z.inj. rewrite Hn. vm_compute. reflexivity.
Defined.

Lemma actual_direction_ties_witness :
  0 < length btc_one_up - 1 - 30 /\
  exists d,
    Backtest.actual_direction btc_one_up 30 = Some d /\
    (exists preds acts,
       Backtest.buyhold_strategy btc_one_up = Some (preds, acts) /\ acts !! 0 = Some d) /\
    (exists preds acts,
       Backtest.heuristic_strategy btc_one_up = Some (preds, acts) /\ acts !! 0 = Some d).
Proof.
  assert (0 < length btc_one_up - 1 - 30) as H by (vm_compute; lia).
  split; [exact H|].
  destruct (actual_direction_ties btc_one_up 0 H)
    as (next & cur & d & _ & _ & _ & Hd & Hb & Hh & _).
  exists d. split; [exact Hd|]. split; [exact Hb|exact Hh].
Defined.

(** A flat step: the price stays at 100 from candle 30 to candle 31. *)
Example actual_direction_flat_step :
  Backtest.actual_direction (replicate 32 (Backtest.Row 100 5)) 30 = Some (-1)%Z.
Proof. vm_compute. reflexivity. Qed.

Lemma missing_predictions_are_skipped_witness :
  ("BTC"%string ∈ Backtest.ASSETS /\
   fetch_two "BTC" = Some btc_one_up /\
   32 <= length btc_one_up /\
   artifacts_present (empty_disk "BTC") = false /\
   exists rep,
     Backtest.main fetch_two empty_disk = Some rep /\
     (forall m, m ∈ Backtest.results rep -> Backtest.asset m = "BTC"%string ->
                Backtest.strategy m <> "AI Model"%string)) /\
  (fetch_short "ETH" = Some (replicate 31 (Backtest.Row 100 5)) /\
   length (replicate 31 (Backtest.Row 100 5)) <= 31 /\
   exists rep,
     Backtest.main fetch_short empty_disk = Some rep /\
     forall m, m ∈ Backtest.results rep -> Backtest.asset m <> "ETH"%string).
Proof.
  destruct missing_predictions_are_skipped as (_ & _ & H3 & H4).
  split.
  - assert ("BTC"%string ∈ Backtest.ASSETS) as Ha by left.
    assert (32 <= length btc_one_up) as Hlen by (vm_compute; lia).
    split; [exact Ha|]. split; [reflexivity|]. split; [exact Hlen|].
    split; [reflexivity|].
    destruct (H3 fetch_two empty_disk "BTC"%string btc_one_up Ha eq_refl Hlen eq_refl)
      as (_ & rep & Hmain & Hno & _).
    exists rep. split; [exact Hmain|exact Hno].
  - assert (length (replicate 31 (Backtest.Row 100 5)) <= 31) as Hlen
      by (vm_compute; lia).
    split; [reflexivity|]. split; [exact Hlen|].
    assert (exists rep, Backtest.main fetch_short empty_disk = Some rep) as [rep Hrep]
      by (eexists; vm_compute; reflexivity).
    exists rep. split; [exact Hrep|].
    exact (H4 fetch_short empty_disk "ETH"%string _ rep eq_refl Hlen Hrep).
Defined.

Lemma aggregate_is_mean_of_means_witness :
  exists rep line,
    Backtest.main fetch_two empty_disk = Some rep /\
    line ∈ Backtest.lines rep /\
    Backtest.line_strategy line = "Buy & Hold"%string /\
    Backtest.avg_acc line
    = Pd.mean (map Backtest.accuracy
                   (Backtest.of_strategy "Buy & Hold" (Backtest.results rep))) /\
    Backtest.avg_acc line = 50%float.
Proof.
  assert (exists rep, Backtest.main fetch_two empty_disk = Some rep) as [rep Hrep]
    by (eexists; vm_compute; reflexivity).
  assert (Backtest.SummaryLine "Buy & Hold" 50 (-1) ∈ Backtest.lines rep) as Hline.
  { vm_compute in Hrep. injection Hrep as <-. right. left. }
  exists rep, (Backtest.SummaryLine "Buy & Hold" 50 (-1)).
  split; [exact Hrep|]. split; [exact Hline|]. split; [reflexivity|].
  destruct (proj1 aggregate_is_mean_of_means fetch_two empty_disk rep _ Hrep Hline)
    as (_ & _ & Hacc & _).
  split; [exact Hacc|reflexivity].
Defined.

(** * Further properties of the scripts *)

(** ** [create_sequences] of the price agents *)

Lemma ltc_create_sequences_at (data : list Backtest.row) (seq_length : nat) :
  exists xs ys,
    LtcAgent.create_sequences data seq_length = Some (xs, ys) /\
    length xs = length data - seq_length /\
    length ys = length xs /\
    forall k, k < length xs ->
      exists next,
        data !! (k + seq_length) = Some next /\
        xs !! k = Some (Py.slice k (k + seq_length) data) /\
        length (Py.slice k (k + seq_length) data) = seq_length /\
        ys !! k = Some (Backtest.close next).
Proof.
  unfold LtcAgent.create_sequences.
  destruct (PyFacts.mapM_range (LtcAgent.sequence_at data seq_length)
              0 (length data - seq_length)) as (samples & -> & Hlen & Hnth).
  { intros i Hi. unfold LtcAgent.sequence_at.
    destruct (lookup_lt_is_Some_2 data (i + seq_length)) as [r ->]; [lia|].
    simpl. eauto. }
  rewrite Nat.sub_0_r in Hlen, Hnth.
  eexists _, _. split; [reflexivity|]. rewrite !length_map.
  split; [done|]. split; [done|].
  intros k Hk.
  destruct (lookup_lt_is_Some_2 data (k + seq_length)) as [next Hnext]; [lia|].
  exists next. split; [done|].
  rewrite !list_lookup_fmap, Hnth by lia. unfold LtcAgent.sequence_at.
  rewrite Nat.add_0_l, Hnext. cbn [fmap option_fmap option_map mbind option_bind fst snd].
  split; [done|]. split; [|done].
  rewrite PyFacts.slice_length; lia.
Qed.

(** X1 -- [create_sequences(data, seq_length)] of [train_ltc_agent.py] never
    raises; it returns [max(0, len(data) - seq_length)] samples, the [k]-th
    window being the [seq_length] rows [data[k : k+seq_length]] and its
    target the close of the row right after the window.  Consecutive
    windows overlap in all but one row. *)
Theorem ltc_create_sequences_windows (data : list Backtest.row) (seq_length : nat) :
  exists xs ys,
    LtcAgent.create_sequences data seq_length = Some (xs, ys) /\
    length xs = length data - seq_length /\
    length ys = length xs /\
    (forall k, k < length xs ->
       exists w next,
         xs !! k = Some w /\ length w = seq_length /\
         (forall j, j < seq_length -> w !! j = data !! (k + j)) /\
         data !! (k + seq_length) = Some next /\
         ys !! k = Some (Backtest.close next)) /\
    (forall k w w', xs !! k = Some w -> xs !! S k = Some w' ->
       drop 1 w = take (seq_length - 1) w').
Proof.
  destruct (ltc_create_sequences_at data seq_length)
    as (xs & ys & Hcs & Hlen & Hll & Hnth).
  exists xs, ys. split; [done|]. split; [done|]. split; [done|]. split.
  - intros k Hk. destruct (Hnth k Hk) as (next & Hnext & Hx & Hw & Hy).
    exists (Py.slice k (k + seq_length) data), next.
    split; [done|]. split; [done|]. split; [|done].
    intros j Hj. unfold Py.slice.
    rewrite lookup_take_lt by lia. apply lookup_drop.
  - intros k w w' Hw Hw'.
    assert (S k < length xs) as Hk by (now apply lookup_lt_is_Some_1; eauto).
    destruct (Hnth k) as (_ & _ & Hx & _); [lia|].
    destruct (Hnth (S k) Hk) as (_ & _ & Hx' & _).
    rewrite Hx in Hw. rewrite Hx' in Hw'. injection Hw as <-. injection Hw' as <-.
    unfold Py.slice. apply list_eq. intros j.
    rewrite lookup_drop, !lookup_take.
    destruct (decide (1 + j < k + seq_length - k)) as [H1|H1];
      destruct (decide (j < seq_length - 1)) as [H2|H2]; try lia; [|done].
    rewrite decide_True by lia. rewrite !lookup_drop. f_equal. lia.
Qed.

(** X2 -- the window [ai_strategy] feeds to the model at step [i] is
    training sample [i - 30] of [create_sequences(scaled_data, 30)], and the
    value its prediction is compared with, [scaled_data[i, 0]], is that
    sample's training target. *)
Theorem backtest_window_is_training_sample
    (run : list Backtest.row -> option float) (scaled_data : list Backtest.row)
    (i : nat) :
  30 <= i < length scaled_data ->
  exists xs ys x y,
    LtcAgent.create_sequences scaled_data LtcAgent.SEQ_LENGTH = Some (xs, ys) /\
    xs !! (i - 30) = Some x /\
    ys !! (i - 30) = Some y /\
    x = Py.slice (i - 30) i scaled_data /\
    Backtest.ai_predicted_direction run scaled_data i
    = match run x with
      | Some predicted_value => if F64.gt predicted_value y then 1%Z else (-1)%Z
      | None => 0%Z
      end.
Proof.
  intros Hi.
  destruct (ltc_create_sequences_at scaled_data LtcAgent.SEQ_LENGTH)
    as (xs & ys & Hcs & Hlen & Hll & Hnth).
  unfold LtcAgent.SEQ_LENGTH in *.
  destruct (Hnth (i - 30)) as (next & Hnext & Hx & _ & Hy); [lia|].
  replace (i - 30 + 30) with i in * by lia.
  exists xs, ys, (Py.slice (i - 30) i scaled_data), (Backtest.close next).
  split; [done|]. split; [done|]. split; [done|]. split; [done|].
  unfold Backtest.ai_predicted_direction, Backtest.SEQ_LENGTH. rewrite Hnext.
  destruct (run (Py.slice (i - 30) i scaled_data)); reflexivity.
Qed.

Lemma backtest_window_is_training_sample_witness :
  30 <= 31 < length eth_three_down /\
  exists xs ys x y,
    LtcAgent.create_sequences eth_three_down LtcAgent.SEQ_LENGTH = Some (xs, ys) /\
    xs !! (31 - 30) = Some x /\
    ys !! (31 - 30) = Some y /\
    x = Py.slice (31 - 30) 31 eth_three_down /\
    Backtest.ai_predicted_direction (fun _ => Some 0%float) eth_three_down 31
    = match (fun _ => Some 0%float) x with
      | Some predicted_value => if F64.gt predicted_value y then 1%Z else (-1)%Z
      | None => 0%Z
      end.
Proof.
  assert (30 <= 31 < length eth_three_down) as H by (vm_compute; lia).
  split; [exact H|].
  exact (backtest_window_is_training_sample (fun _ => Some 0%float) eth_three_down 31 H).
Defined.

(** ** The strategies of the backtest *)

Lemma lists_eq_by_lookup {A} (l1 l2 : list A) (f : nat -> A) :
  length l1 = length l2 ->
  (forall k, k < length l1 -> l1 !! k = Some (f k)) ->
  (forall k, k < length l2 -> l2 !! k = Some (f k)) ->
  l1 = l2.
Proof.
  intros Hlen H1 H2. apply list_eq. intros k.
  destruct (decide (k < length l1)) as [Hk|Hk].
  - rewrite H1, H2 by lia. done.
  - rewrite !lookup_ge_None_2 by lia. done.
Qed.

Lemma realised_lookup (data : list Backtest.row) (acts : list Z) :
  (forall k, k < length acts ->
     exists next cur,
       data !! (30 + k + 1) = Some next /\ data !! (30 + k) = Some cur /\
       acts !! k = Some (if F64.gt (Backtest.close next) (Backtest.close cur)
                         then 1%Z else (-1)%Z)) ->
  forall k, k < length acts -> acts !! k = Some (realised data k).
Proof.
  intros H k Hk. destruct (H k Hk) as (next & cur & Hn & Hc & ->).
  unfold realised. now rewrite Hn, Hc.
Qed.

(** X3 -- on one asset the three strategies are scored on the same
    samples: they return the same list of realised directions, one per step
    from candle 30 to the last but one, and as many predictions each. *)
Theorem strategies_share_samples (art : Backtest.artifacts) (data : list Backtest.row)
    (sc : Backtest.scaler) (run : list Backtest.row -> option float) :
  Backtest.model_exists art = true ->
  Backtest.scaler_file art = Some sc ->
  Backtest.session art = Some run ->
  exists ai_pred heur_pred bh_pred actuals,
    Backtest.ai_strategy art data = Some (Some (ai_pred, actuals)) /\
    Backtest.heuristic_strategy data = Some (heur_pred, actuals) /\
    Backtest.buyhold_strategy data = Some (bh_pred, actuals) /\
    length actuals = length data - 31 /\
    length ai_pred = length actuals /\
    length heur_pred = length actuals /\
    length bh_pred = length actuals.
Proof.
  intros Hm Hs Hr.
  destruct (ai_strategy_runs art data sc run Hm Hs Hr)
    as (ap & aa & Hai & Hapl & Haal & Han).
  destruct (heuristic_strategy_runs data) as (hp & ha & Hh & Hhpl & Hhal & Hhn).
  destruct (buyhold_strategy_runs data) as (bp & ba & Hb & Hbpl & Hbal & Hbn).
  assert (forall k, k < length aa -> aa !! k = Some (realised data k)) as Ea.
  { apply realised_lookup. intros k Hk.
    destruct (Han k) as (n & c & ? & ? & _ & ?); [lia|]. eauto. }
  assert (forall k, k < length ha -> ha !! k = Some (realised data k)) as Eh.
  { apply realised_lookup. intros k Hk. apply Hhn. lia. }
  assert (forall k, k < length ba -> ba !! k = Some (realised data k)) as Eb.
  { apply realised_lookup. intros k Hk.
    destruct (Hbn k) as (n & c & ? & ? & _ & ?); [lia|]. eauto. }
  assert (ha = aa) as -> by (apply (lists_eq_by_lookup _ _ (realised data)); [lia|done|done]).
  assert (ba = aa) as -> by (apply (lists_eq_by_lookup _ _ (realised data)); [lia|done|done]).
  exists ap, hp, bp, aa. split; [done|]. split; [done|]. split; [done|].
  split; [lia|]. split; [lia|]. split; lia.
Qed.

Lemma strategies_share_samples_witness :
  exists ai_pred heur_pred bh_pred actuals,
    Backtest.ai_strategy constant_session eth_three_down
      = Some (Some (ai_pred, actuals)) /\
    Backtest.heuristic_strategy eth_three_down = Some (heur_pred, actuals) /\
    Backtest.buyhold_strategy eth_three_down = Some (bh_pred, actuals) /\
    length actuals = length eth_three_down - 31 /\
    length ai_pred = length actuals /\
    length heur_pred = length actuals /\
    length bh_pred = length actuals.
Proof.
  exact (strategies_share_samples constant_session eth_three_down
           (Backtest.Scaler 100 5 1 1) (fun _ => Some 0%float)
           eq_refl eq_refl eq_refl).
Defined.

(** X4 -- a failed inference does not abort [ai_strategy]: every step gets
    a prediction in [{+1, -1, 0}], and the prediction of a step is 0 exactly
    when [session.run] raised on that step's window. *)
Theorem failed_inference_predicts_zero (art : Backtest.artifacts)
    (data : list Backtest.row) (sc : Backtest.scaler)
    (run : list Backtest.row -> option float) :
  Backtest.model_exists art = true ->
  Backtest.scaler_file art = Some sc ->
  Backtest.session art = Some run ->
  exists preds acts,
    Backtest.ai_strategy art data = Some (Some (preds, acts)) /\
    length preds = length data - 31 /\
    forall k, k < length preds ->
      exists p,
        preds !! k = Some p /\
        (p = 1%Z \/ p = (-1)%Z \/ p = 0%Z) /\
        (p = 0%Z <-> run (Py.slice k (30 + k) (Backtest.scale sc data)) = None).
Proof.
  intros Hm Hs Hr.
  destruct (ai_strategy_runs art data sc run Hm Hs Hr)
    as (preds & acts & Hai & Hlen & _ & Hnth).
  exists preds, acts. split; [done|]. split; [lia|].
  intros k Hk. destruct (Hnth k Hk) as (_ & _ & _ & _ & Hp & _).
  eexists. split; [exact Hp|].
  unfold Backtest.ai_predicted_direction, Backtest.SEQ_LENGTH.
  replace (30 + k - 30) with k by lia.
  destruct (lookup_lt_is_Some_2 (Backtest.scale sc data) (30 + k)) as [cur ->];
    [rewrite scale_length; lia|].
  destruct (run (Py.slice k (30 + k) (Backtest.scale sc data))) as [v|].
  - destruct (F64.gt v (Backtest.close cur)).
    + split; [auto|]. split; discriminate.
    + split; [auto|]. split; discriminate.
  - split; [auto|]. split; reflexivity.
Qed.

Lemma failed_inference_predicts_zero_witness :
  exists preds acts,
    Backtest.ai_strategy failing_session eth_three_down = Some (Some (preds, acts)) /\
    length preds = length eth_three_down - 31 /\
    preds = [0; 0; 0]%Z.
Proof.
  destruct (failed_inference_predicts_zero failing_session eth_three_down
              (Backtest.Scaler 100 5 1 1) (fun _ => None) eq_refl eq_refl eq_refl)
    as (preds & acts & Hai & Hlen & _).
  exists preds, acts. split; [exact Hai|]. split; [exact Hlen|].
  vm_compute in Hai. congruence.
Defined.

Lemma count_correct_ones (acts : list Z) :
  Backtest.count_correct (replicate (length acts) 1%Z) acts
  = length (filter (fun a => a = 1%Z) acts).
Proof.
  rewrite count_correct_filter.
  induction acts as [|a acts IH]; [done|].
  cbn [length replicate zip zip_with]. rewrite !filter_cons. cbn [fst snd].
  destruct (decide (1%Z = a)) as [<-|Hne].
  - rewrite decide_True by done. cbn [length]. now rewrite IH.
  - rewrite decide_False by congruence. exact IH.
Qed.

Lemma length_filter_fmap {A B} (f : A -> B) (P : B -> Prop)
    `{!forall y, Decision (P y)} (l : list A) :
  length (filter P (map f l)) = length (filter (fun x => P (f x)) l).
Proof.
  induction l as [|x l IH]; [done|]. cbn [map]. rewrite !filter_cons.
  destruct (decide (P (f x))); cbn [length]; now rewrite IH.
Qed.

(** X5 -- [buyhold_strategy] never raises; it scores the [len(data) - 31]
    steps from candle 30 to the last but one, predicts [+1] at each, and
    takes as realised direction of step [30 + k] the sign of
    [close[31 + k] > close[30 + k]]; so the number of its predictions that
    [calculate_metrics] counts as correct is the number of steps whose close
    rises. *)
Theorem buyhold_correct_is_rising_steps (data : list Backtest.row) :
  exists preds acts,
    Backtest.buyhold_strategy data = Some (preds, acts) /\
    length preds = length data - 31 /\
    length acts = length data - 31 /\
    (forall k, k < length data - 31 ->
       exists next cur,
         data !! (30 + k + 1) = Some next /\
         data !! (30 + k) = Some cur /\
         realised data k
         = (if F64.gt (Backtest.close next) (Backtest.close cur)
            then 1%Z else (-1)%Z) /\
         preds !! k = Some 1%Z /\
         acts !! k = Some (realised data k)) /\
    Backtest.count_correct preds acts
    = length (filter (fun k => realised data k = 1%Z) (seq 0 (length data - 31))).
Proof.
  destruct (buyhold_strategy_runs data) as (preds & acts & Hb & Hpl & Hal & Hnth).
  exists preds, acts. split; [done|]. split; [lia|]. split; [lia|].
  assert (forall k, k < length acts -> acts !! k = Some (realised data k)) as Hacts.
  { apply realised_lookup. intros k Hk.
    destruct (Hnth k) as (n & c & ? & ? & _ & ?); [lia|]. eauto. }
  split.
  { intros k Hk. destruct (Hnth k) as (next & cur & Hn & Hc & Hp & Ha); [lia|].
    exists next, cur. split; [done|]. split; [done|].
    split; [unfold realised; now rewrite Hn, Hc|].
    split; [done|]. apply Hacts. lia. }
  assert (preds = replicate (length acts) 1%Z) as ->.
  { apply (lists_eq_by_lookup _ _ (fun _ => 1%Z)).
    - rewrite length_replicate. lia.
    - intros k Hk. destruct (Hnth k Hk) as (_ & _ & _ & _ & Hp & _). done.
    - intros k Hk. rewrite length_replicate in Hk. now apply lookup_replicate_2. }
  assert (acts = map (realised data) (seq 0 (length data - 31))) as Hmap.
  { apply (lists_eq_by_lookup _ _ (realised data)).
    - rewrite length_map, length_seq. lia.
    - exact Hacts.
    - intros k Hk. rewrite length_map, length_seq in Hk.
      rewrite list_lookup_fmap, lookup_seq_lt by done. reflexivity. }
  rewrite count_correct_ones, Hmap at 1. apply length_filter_fmap.
Qed.

(** ** The report of [main] *)

Lemma asset_records_nil (fetched : option (list Backtest.row))
    (art : Backtest.artifacts) (a : string) :
  asset_records fetched art a = [] <-> no_samples fetched.
Proof.
  destruct fetched as [data|]; simpl; [|done].
  destruct (asset_records_data data art a)
    as (ai_m & heur_m & bh_m & -> & _ & _ & _ & H32 & H31).
  split.
  - intros Hnil. destruct (decide (length data <= 31)) as [|Hgt]; [done|].
    destruct H32 as ([mh ->] & _); [lia|].
    destruct ai_m; discriminate.
  - intros Hle. destruct (H31 Hle) as (-> & -> & ->). reflexivity.
Qed.

Lemma all_records_nil fetch disk :
  all_records fetch disk = [] <->
  forall a, a ∈ Backtest.ASSETS -> no_samples (fetch a).
Proof.
  split.
  - intros Hnil a Ha. apply (asset_records_nil _ (disk a) a).
    destruct (asset_records (fetch a) (disk a) a) as [|m l] eqn:E; [done|].
    assert (m ∈ all_records fetch disk) as Hin.
    { apply elem_of_all_records. exists a. split; [done|]. rewrite E. left. }
    rewrite Hnil in Hin. now apply elem_of_nil in Hin.
  - intros Hall. destruct (all_records fetch disk) as [|m l] eqn:E; [done|].
    assert (m ∈ all_records fetch disk) as Hin by (rewrite E; left).
    apply elem_of_all_records in Hin as (a & Ha & Hm).
    apply (asset_records_nil _ (disk a) a) in Hall; [|done].
    rewrite Hall in Hm. now apply elem_of_nil in Hm.
Qed.

(** X6 -- when no listed asset yields a sample (every fetch failed or
    returned at most 31 candles), [main] does not return a report: nothing
    is appended to [results], and selecting [df['strategy']] on the frame of
    the empty list raises [KeyError]. *)
Theorem main_raises_without_samples (fetch : string -> option (list Backtest.row))
    (disk : string -> Backtest.artifacts) :
  (forall a, a ∈ Backtest.ASSETS -> no_samples (fetch a)) ->
  all_records fetch disk = [] /\ Backtest.main fetch disk = None.
Proof.
  intros Hall. apply (all_records_nil fetch disk) in Hall.
  split; [exact Hall|]. rewrite main_report, Hall. reflexivity.
Qed.

Lemma main_raises_without_samples_witness :
  Backtest.main fetch_flat_31 empty_disk = None.
Proof.
  apply (main_raises_without_samples fetch_flat_31 empty_disk).
  intros a _. unfold no_samples, fetch_flat_31. rewrite length_replicate. lia.
Defined.

Lemma of_strategy_nonempty (name : string) (rs : list Backtest.metrics) :
  (0 <? length (Backtest.of_strategy name rs)) = true <->
  exists m, m ∈ rs /\ Backtest.strategy m = name.
Proof.
  rewrite Nat.ltb_lt. unfold Backtest.of_strategy. split.
  - intros Hlen. destruct (filter _ rs) as [|m l] eqn:E; [simpl in Hlen; lia|].
    assert (m ∈ filter (fun m => Backtest.strategy m = name) rs) as Hin
      by (rewrite E; left).
    apply list_elem_of_filter in Hin as [? ?]. eauto.
  - intros (m & Hm & Hs).
    assert (m ∈ filter (fun m => Backtest.strategy m = name) rs) as Hin
      by (apply list_elem_of_filter; done).
    destruct (filter _ rs); [now apply elem_of_nil in Hin|simpl; lia].
Qed.

(** X7 -- the summary of [main] has one line for each strategy that has at
    least one record and none for the others, in the order AI Model,
    Heuristic, Buy & Hold; the 55% verdict is given exactly when there is an
    AI Model line, and it is SUCCESS exactly when that line's average
    accuracy is at least 55. *)
Theorem summary_lists_scored_strategies
    (fetch : string -> option (list Backtest.row))
    (disk : string -> Backtest.artifacts) (rep : Backtest.report) :
  Backtest.main fetch disk = Some rep ->
  map Backtest.line_strategy (Backtest.lines rep)
    = filter (fun name => has_strategy (Backtest.results rep) name = true)
             ["AI Model"; "Heuristic"; "Buy & Hold"]%string /\
  (forall name, name ∈ map Backtest.line_strategy (Backtest.lines rep) <->
     (exists m, m ∈ Backtest.results rep /\ Backtest.strategy m = name) /\
     name ∈ ["AI Model"; "Heuristic"; "Buy & Hold"]%string) /\
  (is_Some (Backtest.passed rep) <->
   "AI Model"%string ∈ map Backtest.line_strategy (Backtest.lines rep)) /\
  (forall b, Backtest.passed rep = Some b ->
     exists line, line ∈ Backtest.lines rep /\
       Backtest.line_strategy line = "AI Model"%string /\
       b = PrimFloat.leb 55 (Backtest.avg_acc line)).
Proof.
  intros Hmain. rewrite main_report in Hmain.
  destruct (all_records fetch disk) as [|r rs']; [discriminate|].
  injection Hmain as <-. cbn [Backtest.results Backtest.lines Backtest.passed].
  set (rs := r :: rs').
  assert (map Backtest.line_strategy (Backtest.summary rs)
          = filter (fun name => has_strategy rs name = true)
                   ["AI Model"; "Heuristic"; "Buy & Hold"]%string) as Hlines.
  { unfold Backtest.summary, has_strategy. cbn [omap list_omap].
    rewrite !filter_cons, filter_nil.
    destruct (0 <? length (Backtest.of_strategy "AI Model" rs)) eqn:E1;
    destruct (0 <? length (Backtest.of_strategy "Heuristic" rs)) eqn:E2;
    destruct (0 <? length (Backtest.of_strategy "Buy & Hold" rs)) eqn:E3;
    repeat (rewrite decide_True by done);
    repeat (rewrite decide_False by discriminate); reflexivity. }
  split; [exact Hlines|]. split; [|split].
  - intros name. rewrite Hlines, list_elem_of_filter. unfold has_strategy.
    rewrite of_strategy_nonempty. tauto.
  - rewrite Hlines, list_elem_of_filter. unfold Backtest.verdict, has_strategy.
    destruct (0 <? length (Backtest.of_strategy "AI Model" rs)); split.
    + intros _. split; [done|]. left.
    + eauto.
    + intros [? ?]. discriminate.
    + intros [? _]. discriminate.
  - intros b Hb. unfold Backtest.verdict in Hb.
    destruct (0 <? length (Backtest.of_strategy "AI Model" rs)) eqn:E; [|discriminate].
    injection Hb as <-.
    exists (Backtest.SummaryLine "AI Model"
              (Pd.mean (map Backtest.accuracy (Backtest.of_strategy "AI Model" rs)))
              (Pd.mean (map Backtest.total_return (Backtest.of_strategy "AI Model" rs)))).
    split; [|split; reflexivity].
    unfold Backtest.summary. cbn [omap list_omap]. rewrite E. left.
Qed.

Lemma summary_lists_scored_strategies_witness :
  exists rep,
    Backtest.main fetch_two empty_disk = Some rep /\
    map Backtest.line_strategy (Backtest.lines rep)
      = ["Heuristic"; "Buy & Hold"]%string /\
    Backtest.passed rep = None.
Proof.
  assert (exists rep, Backtest.main fetch_two empty_disk = Some rep) as [rep Hrep]
    by (eexists; vm_compute; reflexivity).
  exists rep. split; [exact Hrep|].
  destruct (summary_lists_scored_strategies fetch_two empty_disk rep Hrep)
    as (Hlines & _ & _ & _).
  vm_compute in Hrep. injection Hrep as <-.
  split; [|reflexivity]. rewrite Hlines. vm_compute. reflexivity.
Defined.

Lemma asset_records_length (fetched : option (list Backtest.row))
    (art : Backtest.artifacts) (a : string) :
  length (asset_records fetched art a) <= 3.
Proof.
  destruct fetched as [data|]; [|simpl; lia].
  destruct (asset_records_data data art a) as (ai_m & heur_m & bh_m & -> & _).
  rewrite !length_app. destruct ai_m, heur_m, bh_m; simpl; lia.
Qed.

(** X8 -- every record [main] saves belongs to a listed asset whose fetch
    returned at least 32 candles, names one of the three strategies, and
    counts [len(data) - 31] predictions, so all records of an asset report
    the same sample count; an AI Model record exists only for an asset whose
    model, scaler and session loaded; and there are at most three records
    per listed asset. *)
Theorem records_report_sample_count
    (fetch : string -> option (list Backtest.row))
    (disk : string -> Backtest.artifacts) (rep : Backtest.report) :
  Backtest.main fetch disk = Some rep ->
  length (Backtest.results rep) <= 3 * length Backtest.ASSETS /\
  forall m, m ∈ Backtest.results rep ->
    Backtest.asset m ∈ Backtest.ASSETS /\
    Backtest.strategy m ∈ ["AI Model"; "Heuristic"; "Buy & Hold"]%string /\
    (Backtest.strategy m = "AI Model"%string ->
     artifacts_present (disk (Backtest.asset m)) = true) /\
    exists data,
      fetch (Backtest.asset m) = Some data /\
      32 <= length data /\
      Backtest.num_predictions m = length data - 31.
Proof.
  intros Hmain. rewrite main_report in Hmain.
  destruct (all_records fetch disk) as [|r rs'] eqn:Hall; [discriminate|].
  injection Hmain as <-. cbn [Backtest.results]. rewrite <- Hall. clear Hall.
  split.
  - unfold all_records. induction Backtest.ASSETS as [|a l IH]; [simpl; lia|].
    cbn [map concat length]. rewrite length_app.
    pose proof (asset_records_length (fetch a) (disk a) a). lia.
  - intros m Hm. apply elem_of_all_records in Hm as (a & Ha & Hm).
    pose proof (asset_records_asset _ _ _ _ Hm) as ->.
    split; [done|].
    destruct (fetch a) as [data|] eqn:Hf; [|now apply elem_of_nil in Hm].
    destruct (asset_records_data data (disk a) a)
      as (ai_m & heur_m & bh_m & Hrecs & Hai & Hh & Hb & _ & H31).
    assert (32 <= length data) as Hlen.
    { destruct (decide (length data <= 31)) as [Hle|]; [|lia].
      destruct (H31 Hle) as (-> & -> & ->). rewrite Hrecs in Hm.
      now apply elem_of_nil in Hm. }
    rewrite Hrecs, !elem_of_app, !elem_of_option_list in Hm.
    destruct Hm as [Hm|[Hm|Hm]].
    + destruct (Hai m Hm) as (_ & Hs & Hp & Hn). rewrite Hs.
      split; [left|]. split; [done|]. exists data. split; [done|]. split; [done|]. lia.
    + destruct (Hh m Hm) as (_ & Hs & Hn). rewrite Hs.
      split; [right; left|]. split; [discriminate|].
      exists data. split; [done|]. split; [done|]. lia.
    + destruct (Hb m Hm) as (_ & Hs & Hn). rewrite Hs.
      split; [right; right; left|]. split; [discriminate|].
      exists data. split; [done|]. split; [done|]. lia.
Qed.

Lemma records_report_sample_count_witness :
  exists rep,
    Backtest.main fetch_two empty_disk = Some rep /\
    length (Backtest.results rep) <= 3 * length Backtest.ASSETS /\
    map Backtest.num_predictions (Backtest.results rep) = [1; 1; 3; 3].
Proof.
  assert (exists rep, Backtest.main fetch_two empty_disk = Some rep) as [rep Hrep]
    by (eexists; vm_compute; reflexivity).
  exists rep. split; [exact Hrep|].
  destruct (records_report_sample_count fetch_two empty_disk rep Hrep) as (Hlen & _).
  split; [exact Hlen|].
  vm_compute in Hrep. injection Hrep as <-. reflexivity.
Defined.

(** ** The training set of [train_model] *)

Lemma create_labels_total (closes : list float) (h : nat) :
  exists labels,
    MultiTimeframe.create_labels closes h = Some labels /\
    length labels = length closes - h - 200 /\
    forall k, k < length labels ->
      labels !! k = MultiTimeframe.label_at closes h (200 + k).
Proof.
  destruct (PyFacts.mapM_range (MultiTimeframe.label_at closes h) 200 (length closes - h))
    as (labels & Hl & Hlen & Hnth).
  { intros i Hi. rewrite multi_label_at.
    destruct (lookup_lt_is_Some_2 closes (i + h)) as [x ->]; [lia|].
    destruct (lookup_lt_is_Some_2 closes i) as [y ->]; [lia|]. simpl. eauto. }
  exists labels. split; [done|]. split; [lia|].
  intros k Hk. apply Hnth. lia.
Qed.

(** X9 -- [train_model] on a non-empty fetch and a listed timeframe hands
    [model.fit] as many rows as labels, [len(ohlcv) - lookahead - 200] of
    each: the alignment cuts the last [lookahead] feature rows, sample [k]
    is the feature row of candle [200 + k], and its label is the one of the
    forward return from that same candle to candle [200 + k + lookahead]. *)
Theorem train_model_aligns_rows_and_labels
    (ohlcv : list MultiTimeframe.candle) (timeframe : string) (lookahead : nat) :
  ohlcv <> [] ->
  MultiTimeframe.TIMEFRAMES !! timeframe = Some lookahead ->
  exists X y,
    MultiTimeframe.train_model ohlcv timeframe = Some (X, y) /\
    length X = length ohlcv - lookahead - 200 /\
    length y = length X /\
    forall k, k < length X ->
      exists r cur fut,
        X !! k = Some r /\
        MultiTimeframe.features_at
          (map MultiTimeframe.high ohlcv) (map MultiTimeframe.low ohlcv)
          (map MultiTimeframe.close ohlcv) (map MultiTimeframe.volume ohlcv)
          (200 + k) = Some r /\
        MultiTimeframe.close <$> ohlcv !! (200 + k) = Some cur /\
        MultiTimeframe.close <$> ohlcv !! (200 + k + lookahead) = Some fut /\
        y !! k = Some (Label.of_return 2.0 (Label.forward_return cur fut)).
Proof.
  intros Hne Htf. unfold MultiTimeframe.train_model.
  destruct (calculate_features_rows ohlcv Hne) as (rows & -> & Hrows & Hrow).
  destruct (create_labels_total (map MultiTimeframe.close ohlcv) lookahead)
    as (labels & Hl & Hlen & Hlab).
  rewrite length_map in Hlen.
  cbn [mbind option_bind]. rewrite Htf. cbn [mbind option_bind]. rewrite Hl.
  cbn [mbind option_bind]. cbv zeta.
  assert (Nat.min (length rows) (length labels) = length ohlcv - lookahead - 200)
    as -> by lia.
  eexists _, _. split; [reflexivity|].
  rewrite !length_take. split; [lia|]. split; [lia|].
  intros k Hk.
  destruct (Hrow k) as (r & Hr & _ & Hfeat); [lia|].
  destruct (lookup_lt_is_Some_2 ohlcv (200 + k)) as [c Hc]; [lia|].
  destruct (lookup_lt_is_Some_2 ohlcv (200 + k + lookahead)) as [f Hf]; [lia|].
  exists r, (MultiTimeframe.close c), (MultiTimeframe.close f).
  rewrite !lookup_take_lt by lia. rewrite Hc, Hf.
  split; [done|]. split; [done|]. split; [done|]. split; [done|].
  rewrite Hlab by lia. rewrite multi_label_at, !list_lookup_fmap, Hc, Hf.
  reflexivity.
Qed.

Lemma train_model_aligns_rows_and_labels_witness :
  exists X y,
    MultiTimeframe.train_model boundary_candles "5m" = Some (X, y) /\
    length X = 4 /\ length y = length X.
Proof.
  destruct (train_model_aligns_rows_and_labels boundary_candles "5m" 1)
    as (X & y & H & HX & Hy & _).
  - discriminate.
  - vm_compute. reflexivity.
  - exists X, y. split; [exact H|]. split; [exact HX|exact Hy].
Defined.

(** X10 -- [train_model] raises before training in two cases only: the
    fetch returned no candle ([IndexError] of the column selection) or the
    timeframe is not a key of [TIMEFRAMES] ([KeyError]).  On every other
    input, however short or degenerate its prices, a data set is built. *)
Theorem train_model_raises_iff
    (ohlcv : list MultiTimeframe.candle) (timeframe : string) :
  MultiTimeframe.train_model ohlcv timeframe = None <->
  ohlcv = [] \/ MultiTimeframe.TIMEFRAMES !! timeframe = None.
Proof.
  split.
  - intros Hnone. destruct ohlcv as [|c l]; [now left|]. right.
    destruct (MultiTimeframe.TIMEFRAMES !! timeframe) as [h|] eqn:Htf; [|done].
    unfold MultiTimeframe.train_model in Hnone.
    destruct (calculate_features_rows (c :: l)) as (rows & Hrows & _); [done|].
    destruct (create_labels_total (map MultiTimeframe.close (c :: l)) h)
      as (labels & Hl & _).
    rewrite Hrows in Hnone. cbn [mbind option_bind] in Hnone.
    rewrite Htf in Hnone. cbn [mbind option_bind] in Hnone.
    rewrite Hl in Hnone. discriminate Hnone.
  - intros [->|Htf]; [reflexivity|].
    unfold MultiTimeframe.train_model.
    destruct (MultiTimeframe.calculate_features ohlcv); [|reflexivity].
    cbn [mbind option_bind]. rewrite Htf. reflexivity.
Qed.

(** ** The training set of [train_lstm_model] *)

Lemma slice_lookup {A} (a b j : nat) (xs : list A) :
  j < b - a -> Py.slice a b xs !! j = xs !! (a + j).
Proof.
  intros Hj. unfold Py.slice. rewrite lookup_take_lt by done. apply lookup_drop.
Qed.

(** X11 -- [train_lstm_model] on arrays of one length builds
    [len(closes) - 266] samples.  Window [k] holds the sixty computed rows
    of candles [200 + k .. 259 + k]: none of the zero rows of the warm-up,
    and not the row of its own anchor, candle [260 + k], whose close the
    label compares with the close six candles later. *)
Theorem train_lstm_model_windows (highs lows closes volumes : list float) :
  length highs = length closes ->
  length lows = length closes ->
  length volumes = length closes ->
  exists sequences labels,
    LstmSignal.train_lstm_model highs lows closes volumes = Some (sequences, labels) /\
    length sequences = length closes - 266 /\
    length labels = length sequences /\
    forall k, k < length sequences ->
      exists w cur fut,
        sequences !! k = Some w /\
        length w = 60 /\
        (forall j, j < 60 ->
           exists r, w !! j = Some r /\
             LstmSignal.row_at highs lows closes volumes (200 + k + j) = Some r) /\
        closes !! (260 + k) = Some cur /\
        closes !! (266 + k) = Some fut /\
        labels !! k = Some (Label.of_return 0.15 (Label.forward_return cur fut)).
Proof.
  intros Hh Hl Hv. unfold LstmSignal.train_lstm_model.
  destruct (calculate_technical_indicators_rows highs lows closes volumes Hh Hl Hv)
    as (features & -> & Hlen & _ & Hrows).
  cbn [mbind option_bind].
  destruct (create_sequences_at features closes LstmSignal.SEQUENCE_LENGTH 6)
    as (seqs & labels & -> & Hn & Hlab & Hnth); [lia|].
  unfold LstmSignal.SEQUENCE_LENGTH in *.
  exists seqs, labels. split; [reflexivity|]. split; [lia|]. split; [done|].
  intros k Hk. destruct (Hnth k Hk) as (cur & fut & Hcur & Hfut & Hw & Hy).
  exists (Py.slice (200 + k) (200 + 60 + k) features), cur, fut.
  split; [exact Hw|]. split.
  { unfold Py.slice. rewrite length_take, length_drop. lia. }
  split.
  { intros j Hj. destruct (Hrows (200 + k + j)) as (r & Hr & _ & Hrow); [lia|].
    exists r. split; [|exact Hrow].
    rewrite slice_lookup by lia. exact Hr. }
  assert (200 + 60 + k = 260 + k) as E1 by lia.
  assert (200 + 60 + k + 6 = 266 + k) as E2 by lia.
  rewrite E1 in Hcur. rewrite E2 in Hfut. done.
Qed.

Lemma train_lstm_model_windows_witness :
  exists sequences labels,
    LstmSignal.train_lstm_model prices_268 prices_268 prices_268 prices_268
      = Some (sequences, labels) /\
    length sequences = 2 /\ length labels = length sequences.
Proof.
  destruct (train_lstm_model_windows prices_268 prices_268 prices_268 prices_268)
    as (s & l & H & Hs & Hl & _); try reflexivity.
  exists s, l. split; [exact H|]. split; [exact Hs|exact Hl].
Defined.

(** ** The price history of the 24-hour trainer *)

Lemma train_step_state (history_prices : list float) (fetched : option float) :
  fst (Enhanced24h.train_step history_prices fetched) =
  match fetched with
  | None => history_prices
  | Some price => Enhanced24h.record_price history_prices price
  end.
Proof.
  destruct fetched as [price|]; [|reflexivity]. unfold Enhanced24h.train_step.
  destruct (length (Enhanced24h.record_price history_prices price) <? 5); reflexivity.
Qed.

Lemma history_after_snoc (fetches : list (option float)) (fetched : option float) :
  Enhanced24h.history_after (fetches ++ [fetched]) =
  fst (Enhanced24h.train_step (Enhanced24h.history_after fetches) fetched).
Proof. unfold Enhanced24h.history_after. now rewrite foldl_app. Qed.

(** X12 -- after any number of calls of [train_step], [history_prices] holds
    the last 1000 prices that were fetched successfully, oldest first: a
    failed fetch leaves no trace, and the list never grows past 1000
    entries. *)
Theorem history_is_last_1000_prices (fetches : list (option float)) :
  Enhanced24h.history_after fetches
    = drop (length (omap id fetches) - 1000) (omap id fetches) /\
  length (Enhanced24h.history_after fetches) <= 1000.
Proof.
  assert (Enhanced24h.history_after fetches
          = drop (length (omap id fetches) - 1000) (omap id fetches)) as H.
  { induction fetches as [|fetched fetches IH] using rev_ind; [reflexivity|].
    rewrite history_after_snoc, train_step_state, omap_app, IH.
    destruct fetched as [price|]; cbn [omap list_omap id].
    - set (ps := omap id fetches). unfold Enhanced24h.record_price.
      rewrite !length_app, length_drop. cbn [length].
      destruct (1000 <? length ps - (length ps - 1000) + 1) eqn:E.
      + apply Nat.ltb_lt in E.
        rewrite <- drop_app_le by lia. rewrite drop_drop. f_equal. lia.
      + apply Nat.ltb_ge in E.
        assert (length ps - 1000 = 0) as -> by lia.
        assert (length ps + 1 - 1000 = 0) as -> by lia. reflexivity.
    - rewrite !app_nil_r. reflexivity. }
  split; [exact H|]. rewrite H, length_drop. lia.
Qed.

(** X13 -- a call of [train_step] trains exactly when the fetch succeeded
    and at least four prices were held before it.  The batch then pairs
    every held price but the last with the price that follows it:
    [X[k]] is price [k] and [y[k]] is price [k + 1] of the updated
    history. *)
Theorem train_step_pairs_price_with_next
    (history_prices : list float) (fetched : option float) :
  (is_Some (snd (Enhanced24h.train_step history_prices fetched)) <->
   is_Some fetched /\ 4 <= length history_prices) /\
  forall X y,
    snd (Enhanced24h.train_step history_prices fetched) = Some (X, y) ->
    let history := fst (Enhanced24h.train_step history_prices fetched) in
    length X = length history - 1 /\
    length y = length X /\
    forall k, k < length X ->
      exists now next,
        history !! k = Some now /\ history !! S k = Some next /\
        X !! k = Some now /\ y !! k = Some next.
Proof.
  destruct fetched as [price|]; cbn [Enhanced24h.train_step].
  2:{ split; [|intros X y H; discriminate H].
      cbn [snd]. split; [intros [? H]; discriminate H|].
      intros [[? H] _]. discriminate H. }
  set (h := Enhanced24h.record_price history_prices price).
  assert (5 <= length h <-> 4 <= length history_prices) as Hlen.
  { unfold h, Enhanced24h.record_price. rewrite length_app. cbn [length].
    destruct (1000 <? length history_prices + 1) eqn:E.
    - apply Nat.ltb_lt in E. rewrite length_drop, length_app. cbn [length]. lia.
    - apply Nat.ltb_ge in E. rewrite length_app. cbn [length]. lia. }
  destruct (length h <? 5) eqn:E5.
  - apply Nat.ltb_lt in E5. cbn [snd]. split; [|intros X y H; discriminate H].
    split; [intros [? H]; discriminate H|]. intros [_ H4]. lia.
  - apply Nat.ltb_ge in E5. cbn [snd fst]. split.
    { split; [intros _|eauto]. split; [eauto|]. lia. }
    intros X y H. injection H as <- <-. cbv zeta.
    rewrite length_take, length_drop. split; [lia|]. split; [lia|].
    intros k Hk.
    destruct (lookup_lt_is_Some_2 h k) as [now Hnow]; [lia|].
    destruct (lookup_lt_is_Some_2 h (S k)) as [next Hnext]; [lia|].
    exists now, next. split; [done|]. split; [done|].
    rewrite lookup_take_lt by lia. rewrite lookup_drop. done.
Qed.

Lemma train_step_pairs_price_with_next_witness :
  exists X y,
    snd (Enhanced24h.train_step [1; 2; 3; 4]%float (Some 5%float)) = Some (X, y) /\
    length X = 4 /\ length y = length X.
Proof.
  destruct (train_step_pairs_price_with_next [1; 2; 3; 4]%float (Some 5%float))
    as [_ H].
  eexists _, _. split; [reflexivity|].
  destruct (H _ _ eq_refl) as (HX & Hy & _).
  split; [exact HX|exact Hy].
Defined.

(** ** Predictions and the future *)

Lemma slice_prefix {A} (a b n : nat) (xs ys : list A) :
  take n xs = take n ys -> b <= n -> Py.slice a b xs = Py.slice a b ys.
Proof.
  intros Hpre Hb. unfold Py.slice. apply list_eq. intros j.
  rewrite !lookup_take. destruct (decide (j < b - a)); [|done].
  rewrite !lookup_drop.
  rewrite <- (lookup_take_lt xs n), <- (lookup_take_lt ys n) by lia.
  now rewrite Hpre.
Qed.

Lemma lookup_prefix {A} (i n : nat) (xs ys : list A) :
  take n xs = take n ys -> i < n -> xs !! i = ys !! i.
Proof.
  intros Hpre Hi.
  rewrite <- (lookup_take_lt xs n), <- (lookup_take_lt ys n) by lia.
  now rewrite Hpre.
Qed.

Lemma heuristic_predictions (data : list Backtest.row) :
  exists preds acts,
    Backtest.heuristic_strategy data = Some (preds, acts) /\
    length preds = length data - 1 - 30 /\
    forall k, k < length preds ->
      preds !! k = Some (heuristic_prediction data (30 + k)).
Proof.
  unfold Backtest.heuristic_strategy.
  destruct (strategy_loop (heuristic_prediction data) data)
    as (pairs & Hp & Hlen & Hnth).
  unfold heuristic_prediction in Hp. cbv zeta. rewrite Hp.
  eexists _, _. split; [reflexivity|]. rewrite !length_map. split; [done|].
  intros k Hk. destruct (Hnth k Hk) as (next & cur & _ & _ & Hk').
  rewrite list_lookup_fmap, Hk'. reflexivity.
Qed.

(** X14 -- the heuristic looks only backwards: its prediction for step
    [30 + k] depends on the candles before index [30 + k] and on nothing
    else, so two series that agree on their first [n] candles get the same
    predictions for every step up to [n]. *)
Theorem heuristic_uses_no_future (data1 data2 : list Backtest.row) (n : nat) :
  take n data1 = take n data2 ->
  exists p1 a1 p2 a2,
    Backtest.heuristic_strategy data1 = Some (p1, a1) /\
    Backtest.heuristic_strategy data2 = Some (p2, a2) /\
    forall k, 30 + k <= n -> k < length p1 -> k < length p2 ->
      p1 !! k = p2 !! k.
Proof.
  intros Hpre.
  destruct (heuristic_predictions data1) as (p1 & a1 & H1 & _ & Hk1).
  destruct (heuristic_predictions data2) as (p2 & a2 & H2 & _ & Hk2).
  exists p1, a1, p2, a2. split; [done|]. split; [done|].
  intros k Hn Hl1 Hl2. rewrite Hk1, Hk2 by done.
  unfold heuristic_prediction.
  rewrite (slice_prefix (30 + k - 5) (30 + k) n data1 data2) by done.
  rewrite (slice_prefix (30 + k - 20) (30 + k) n data1 data2) by done.
  reflexivity.
Qed.

Lemma heuristic_uses_no_future_witness :
  exists p1 a1 p2 a2,
    Backtest.heuristic_strategy btc_one_up = Some (p1, a1) /\
    Backtest.heuristic_strategy eth_three_down = Some (p2, a2) /\
    p1 !! 0 = p2 !! 0.
Proof.
  destruct (heuristic_uses_no_future btc_one_up eth_three_down 31)
    as (p1 & a1 & p2 & a2 & H1 & H2 & H); [reflexivity|].
  exists p1, a1, p2, a2. split; [exact H1|]. split; [exact H2|].
  vm_compute in H1. vm_compute in H2.
  injection H1 as <- <-. injection H2 as <- <-.
  apply H; simpl; lia.
Defined.

(** X15 -- the AI strategy looks only backwards as well: its prediction for
    step [30 + k] is computed from the scaled rows up to index [30 + k], the
    thirty of the window and the current one, so two series that agree on
    their first [n] candles get the same predictions for every step before
    [n], whatever the session computes. *)
Theorem ai_strategy_uses_no_future (art : Backtest.artifacts)
    (data1 data2 : list Backtest.row) (n : nat) :
  artifacts_present art = true ->
  take n data1 = take n data2 ->
  exists p1 a1 p2 a2,
    Backtest.ai_strategy art data1 = Some (Some (p1, a1)) /\
    Backtest.ai_strategy art data2 = Some (Some (p2, a2)) /\
    forall k, 30 + k < n -> k < length p1 -> k < length p2 ->
      p1 !! k = p2 !! k.
Proof.
  intros Hart Hpre. unfold artifacts_present in Hart.
  apply andb_true_iff in Hart as [Hart Hrun].
  apply andb_true_iff in Hart as [Hm Hsc].
  apply bool_decide_eq_true in Hsc as [sc Hsc].
  apply bool_decide_eq_true in Hrun as [run Hrun].
  destruct (ai_strategy_runs art data1 sc run Hm Hsc Hrun)
    as (p1 & a1 & H1 & _ & _ & Hk1).
  destruct (ai_strategy_runs art data2 sc run Hm Hsc Hrun)
    as (p2 & a2 & H2 & _ & _ & Hk2).
  exists p1, a1, p2, a2. split; [done|]. split; [done|].
  intros k Hn Hl1 Hl2.
  destruct (Hk1 k Hl1) as (? & ? & _ & _ & -> & _).
  destruct (Hk2 k Hl2) as (? & ? & _ & _ & -> & _).
  assert (take n (Backtest.scale sc data1) = take n (Backtest.scale sc data2)) as Hsp.
  { unfold Backtest.scale. rewrite <- !fmap_take. now rewrite Hpre. }
  unfold Backtest.ai_predicted_direction, Backtest.SEQ_LENGTH.
  rewrite (slice_prefix (30 + k - 30) (30 + k) n _ _ Hsp) by lia.
  rewrite (lookup_prefix (30 + k) n _ _ Hsp) by lia.
  reflexivity.
Qed.

Lemma ai_strategy_uses_no_future_witness :
  exists p1 a1 p2 a2,
    Backtest.ai_strategy constant_session btc_one_up = Some (Some (p1, a1)) /\
    Backtest.ai_strategy constant_session eth_three_down = Some (Some (p2, a2)) /\
    p1 !! 0 = p2 !! 0.
Proof.
  destruct (ai_strategy_uses_no_future constant_session btc_one_up eth_three_down 31)
    as (p1 & a1 & p2 & a2 & H1 & H2 & H); [reflexivity|reflexivity|].
  exists p1, a1, p2, a2. split; [exact H1|]. split; [exact H2|].
  vm_compute in H1. vm_compute in H2.
  injection H1 as <- <-. injection H2 as <- <-.
  apply H; simpl; lia.
Defined.
